(** * Robot lifecycle simulation: a model of [untitled1/main.cpp]

    The program keeps two vectors of robots (live and destroyed), advances a
    lazy clock before every command and prints a line [D team robot] whenever
    a robot's blood reaches zero.  All integers of the source are [uint32_t];
    they are modelled as [Z] with the 32-bit wrap-around written out.

    Between two calls of the manager's methods every object is held by
    exactly one slot of exactly one of the two vectors: an object is created
    by [make_shared] straight into [live_robots_], and a method that moves it
    to the other vector does a [push_back] there and erases the old slot
    before it returns.  So a vector of [shared_ptr] is modelled as a list of
    robot values, a write through the pointer that [find_if] returned as an
    update of the first matching element, and a [push_back] of that pointer
    as the insertion of the updated value. *)

From Stdlib Require Import ZArith List Lia Bool String Sorted.
Import ListNotations.
Open Scope Z_scope.

(** ** Machine integers *)

Definition u32 (z : Z) : Prop := 0 <= z < 2 ^ 32.

Definition wrap32 (z : Z) : Z := z mod 2 ^ 32.

(** ** The entity model *)

(** [enum class RobotType]: an integer-backed enumeration.  [main] casts the
    third operand to it unchecked, so a value that is neither enumerator may
    arrive; it then equals neither of them. *)
Definition RobotType := Z.
Definition kInfantry : RobotType := 0.
Definition kEngineer : RobotType := 1.

(** The dynamic class of an object ([InfantryRobot] or [EngineerRobot]). *)
Inductive RobotClass : Set := Infantry | Engineer.

Record BaseRobot : Set := mkRobot {
  team_id : Z;
  robot_id : Z;
  heat_ : Z;
  max_heat_ : Z;
  level_ : Z;
  max_blood_ : Z;
  type : RobotType;
  blood_ : Z;
  class_of : RobotClass
}.

Definition set_heat (h : Z) (r : BaseRobot) : BaseRobot :=
  mkRobot (team_id r) (robot_id r) h (max_heat_ r) (level_ r) (max_blood_ r)
          (type r) (blood_ r) (class_of r).

Definition set_max_heat (h : Z) (r : BaseRobot) : BaseRobot :=
  mkRobot (team_id r) (robot_id r) (heat_ r) h (level_ r) (max_blood_ r)
          (type r) (blood_ r) (class_of r).

Definition set_level (l : Z) (r : BaseRobot) : BaseRobot :=
  mkRobot (team_id r) (robot_id r) (heat_ r) (max_heat_ r) l (max_blood_ r)
          (type r) (blood_ r) (class_of r).

Definition set_max_blood (b : Z) (r : BaseRobot) : BaseRobot :=
  mkRobot (team_id r) (robot_id r) (heat_ r) (max_heat_ r) (level_ r) b
          (type r) (blood_ r) (class_of r).

Definition set_blood (b : Z) (r : BaseRobot) : BaseRobot :=
  mkRobot (team_id r) (robot_id r) (heat_ r) (max_heat_ r) (level_ r)
          (max_blood_ r) (type r) b (class_of r).

(** [BaseRobot::BaseRobot]: zeroed attributes, level 1. *)
Definition BaseRobot_ctor (team robot : Z) (ty : RobotType) (c : RobotClass)
  : BaseRobot :=
  mkRobot team robot 0 0 1 0 ty 0 c.

Definition GetId (r : BaseRobot) : Z * Z := (team_id r, robot_id r).

Definition id_eqb (a b : Z * Z) : bool :=
  (fst a =? fst b) && (snd a =? snd b).

(** [IsDead]: [blood_ <= 0]. *)
Definition IsDead (r : BaseRobot) : bool := blood_ r <=? 0.

(** [ChangeHeat]: heat cools by the elapsed time, clamped at zero; when the
    cooled heat still exceeds the limit, blood drops by the elapsed time,
    clamped at zero. *)
Definition ChangeHeat (time_delta : Z) (r : BaseRobot) : BaseRobot :=
  let r1 :=
    set_heat (if heat_ r >? time_delta
              then wrap32 (heat_ r - time_delta) else 0) r in
  if heat_ r1 >? max_heat_ r1
  then set_blood (if blood_ r1 >? time_delta
                  then wrap32 (blood_ r1 - time_delta) else 0) r1
  else r1.

(** [GetType] is virtual: each class returns its own constant. *)
Definition GetType (r : BaseRobot) : RobotType :=
  match class_of r with
  | Infantry => kInfantry
  | Engineer => kEngineer
  end.

(** [InfantryRobot::Rebuild]: the [switch] on the level. *)
Definition Infantry_Rebuild (r : BaseRobot) : BaseRobot :=
  let r1 := set_heat 0 r in
  let r2 :=
    if level_ r1 =? 1 then set_max_heat 100 (set_max_blood 100 r1)
    else if level_ r1 =? 2 then set_max_heat 200 (set_max_blood 150 r1)
    else if level_ r1 =? 3 then set_max_heat 300 (set_max_blood 250 r1)
    else set_max_heat 100 (set_max_blood 100 r1) in
  set_blood (max_blood_ r2) r2.

(** [EngineerRobot::Rebuild]. *)
Definition Engineer_Rebuild (r : BaseRobot) : BaseRobot :=
  let r1 := set_max_blood 300 r in
  let r2 := set_blood (max_blood_ r1) r1 in
  let r3 := set_heat 0 r2 in
  set_max_heat 0 r3.

(** The virtual call [robot->Rebuild()]. *)
Definition Rebuild (r : BaseRobot) : BaseRobot :=
  match class_of r with
  | Infantry => Infantry_Rebuild r
  | Engineer => Engineer_Rebuild r
  end.

(** The two constructors. *)
Definition InfantryRobot (team robot : Z) : BaseRobot :=
  Infantry_Rebuild (set_level 1 (BaseRobot_ctor team robot kInfantry Infantry)).

Definition EngineerRobot (team robot : Z) : BaseRobot :=
  Engineer_Rebuild (BaseRobot_ctor team robot kEngineer Engineer).

(** [InfantryRobot::Upgrade]: the returned flag and the updated object. *)
Definition Upgrade (target_level : Z) (r : BaseRobot) : bool * BaseRobot :=
  if (target_level >? level_ r) && (target_level <=? 3)
  then (true, Infantry_Rebuild (set_level target_level r))
  else (false, r).

(** [InfantryRobot::AddHeat]: [heat_ += add_heat] on 32 bits. *)
Definition AddHeat (add_heat : Z) (r : BaseRobot) : BaseRobot :=
  set_heat (wrap32 (heat_ r + add_heat)) r.

(** ** The manager *)

(** The manager's fields, together with the lines written to [std::cout]:
    one pair per line [D team robot], oldest first. *)
Record RobotManager : Set := mkManager {
  live_robots_ : list BaseRobot;
  dead_robots_ : list BaseRobot;
  last_time_ : Z;
  cout : list (Z * Z)
}.

Definition init : RobotManager := mkManager [] [] 0 [].

(** The test [robot->GetId() == std::make_tuple(team_id, robot_id)]. *)
Definition has_id (team robot : Z) (r : BaseRobot) : bool :=
  id_eqb (GetId r) (team, robot).

(** [FindLiveRobot]: the first live robot with the two ids. *)
Definition FindLiveRobot (team robot : Z) (m : RobotManager)
  : option BaseRobot :=
  find (has_id team robot) (live_robots_ m).

(** [FindDeadRobot]: the first destroyed robot with the two ids and the
    type. *)
Definition FindDeadRobot (team robot : Z) (ty : RobotType) (m : RobotManager)
  : option BaseRobot :=
  find (fun r => has_id team robot r && (GetType r =? ty))
       (dead_robots_ m).

(** A write through the pointer that [find_if] returned: the first element
    satisfying [p] is replaced by its image under [f]. *)
Fixpoint update_first (p : BaseRobot -> bool) (f : BaseRobot -> BaseRobot)
  (l : list BaseRobot) : list BaseRobot :=
  match l with
  | [] => []
  | r :: rest => if p r then f r :: rest else r :: update_first p f rest
  end.

(** The erase loops: every element with the two ids is dropped. *)
Definition erase_id (team robot : Z) (l : list BaseRobot) : list BaseRobot :=
  filter (fun r => negb (has_id team robot r)) l.

(** The loop of [HandleTimeChange] over the live vector: the robots that
    stay, the destroyed vector and the output after the loop. *)
Fixpoint time_loop (time_delta : Z) (live dead : list BaseRobot)
  (out : list (Z * Z)) : list BaseRobot * list BaseRobot * list (Z * Z) :=
  match live with
  | [] => ([], dead, out)
  | r :: rest =>
      let r' := ChangeHeat time_delta r in
      if IsDead r'
      then time_loop time_delta rest (dead ++ [r']) (out ++ [GetId r'])
      else
        let '(l, d, o) := time_loop time_delta rest dead out in
        (r' :: l, d, o)
  end.

Definition HandleTimeChange (curr_time : Z) (m : RobotManager) : RobotManager :=
  if curr_time <=? last_time_ m then m
  else
    let time_delta := wrap32 (curr_time - last_time_ m) in
    let '(l, d, o) :=
      time_loop time_delta (live_robots_ m) (dead_robots_ m) (cout m) in
    mkManager l d curr_time o.

Definition HandleCommandA (team robot : Z) (ty : RobotType) (m : RobotManager)
  : RobotManager :=
  match FindLiveRobot team robot m with
  | Some _ => m
  | None =>
      match FindDeadRobot team robot ty m with
      | Some r =>
          mkManager (live_robots_ m ++ [Rebuild r])
                    (erase_id team robot (dead_robots_ m))
                    (last_time_ m) (cout m)
      | None =>
          if ty =? kInfantry
          then mkManager (live_robots_ m ++ [InfantryRobot team robot])
                         (dead_robots_ m) (last_time_ m) (cout m)
          else if ty =? kEngineer
          then mkManager (live_robots_ m ++ [EngineerRobot team robot])
                         (dead_robots_ m) (last_time_ m) (cout m)
          else m
      end
  end.

Definition HandleCommandF (team robot damage : Z) (m : RobotManager)
  : RobotManager :=
  match FindLiveRobot team robot m with
  | None => m
  | Some r =>
      if IsDead r then m
      else
        let new_blood :=
          if blood_ r >? damage then wrap32 (blood_ r - damage) else 0 in
        let r' := set_blood new_blood r in
        let live :=
          update_first (has_id team robot)
                       (fun _ => r') (live_robots_ m) in
        if IsDead r'
        then
          let '(team', robot') := GetId r' in
          mkManager (erase_id team' robot' live) (dead_robots_ m ++ [r'])
                    (last_time_ m) (cout m ++ [(team', robot')])
        else mkManager live (dead_robots_ m) (last_time_ m) (cout m)
  end.

Definition HandleCommandH (team robot add_heat : Z) (m : RobotManager)
  : RobotManager :=
  match FindLiveRobot team robot m with
  | None => m
  | Some r =>
      if GetType r =? kEngineer then m
      else
        match class_of r with
        | Infantry =>
            mkManager
              (update_first (has_id team robot)
                            (AddHeat add_heat) (live_robots_ m))
              (dead_robots_ m) (last_time_ m) (cout m)
        | Engineer => m
        end
  end.

Definition HandCommandU (team robot target_level : Z) (m : RobotManager)
  : RobotManager :=
  match FindLiveRobot team robot m with
  | None => m
  | Some r =>
      if GetType r =? kEngineer then m
      else
        match class_of r with
        | Infantry =>
            mkManager
              (update_first (has_id team robot)
                            (fun x => snd (Upgrade target_level x))
                            (live_robots_ m))
              (dead_robots_ m) (last_time_ m) (cout m)
        | Engineer => m
        end
  end.

(** ** The command loop of [main] *)

(** One input record: the time stamp, the command word and three operands. *)
Record Command : Set := mkCommand {
  c_time : Z;
  c_cmd : string;
  c_p1 : Z;
  c_p2 : Z;
  c_p3 : Z
}.

Definition wf_command (c : Command) : Prop :=
  u32 (c_time c) /\ u32 (c_p1 c) /\ u32 (c_p2 c) /\ u32 (c_p3 c).

(** The dispatch on the command word, after the clock has been advanced. *)
Definition dispatch (c : Command) (m : RobotManager) : RobotManager :=
  if String.eqb (c_cmd c) "A" then HandleCommandA (c_p1 c) (c_p2 c) (c_p3 c) m
  else if String.eqb (c_cmd c) "F" then HandleCommandF (c_p1 c) (c_p2 c) (c_p3 c) m
  else if String.eqb (c_cmd c) "H" then HandleCommandH (c_p1 c) (c_p2 c) (c_p3 c) m
  else if String.eqb (c_cmd c) "U" then HandCommandU (c_p1 c) (c_p2 c) (c_p3 c) m
  else m.

(** The body of the loop of [main]. *)
Definition process (c : Command) (m : RobotManager) : RobotManager :=
  dispatch c (HandleTimeChange (c_time c) m).

Definition run (cs : list Command) (m : RobotManager) : RobotManager :=
  fold_left (fun s c => process c s) cs m.

(** The states of the manager between two calls of its methods: the empty
    manager, and the result of any method call with 32-bit operands. *)
Inductive reachable : RobotManager -> Prop :=
| reach_init : reachable init
| reach_time m t :
    reachable m -> u32 t -> reachable (HandleTimeChange t m)
| reach_A m a b ty :
    reachable m -> u32 a -> u32 b -> u32 ty ->
    reachable (HandleCommandA a b ty m)
| reach_F m a b d :
    reachable m -> u32 a -> u32 b -> u32 d ->
    reachable (HandleCommandF a b d m)
| reach_H m a b h :
    reachable m -> u32 a -> u32 b -> u32 h ->
    reachable (HandleCommandH a b h m)
| reach_U m a b l :
    reachable m -> u32 a -> u32 b -> u32 l ->
    reachable (HandCommandU a b l m).

(** ** Vocabulary of the statements *)

(** A robot whose attributes all fit [uint32_t]. *)
Definition wf_robot (r : BaseRobot) : Prop :=
  u32 (team_id r) /\ u32 (robot_id r) /\ u32 (heat_ r) /\ u32 (max_heat_ r) /\
  u32 (level_ r) /\ u32 (max_blood_ r) /\ u32 (blood_ r).

(** The caps that the [switch] of [InfantryRobot::Rebuild] gives to a level,
    its default case included: (maximal blood, maximal heat). *)
Definition level_caps (level : Z) : Z * Z :=
  if level =? 1 then (100, 100)
  else if level =? 2 then (150, 200)
  else if level =? 3 then (250, 300)
  else (100, 100).

(** What holds of every robot the program builds: 32-bit attributes, the
    stored type agreeing with the class, blood within its cap, and the caps
    of the class. *)
Definition good_robot (r : BaseRobot) : Prop :=
  wf_robot r /\ type r = GetType r /\ blood_ r <= max_blood_ r /\
  match class_of r with
  | Infantry =>
      1 <= level_ r <= 3 /\ (max_blood_ r, max_heat_ r) = level_caps (level_ r)
  | Engineer =>
      level_ r = 1 /\ max_blood_ r = 300 /\ max_heat_ r = 0 /\ heat_ r = 0
  end.

(** The invariant of the manager. *)
Record Inv (m : RobotManager) : Prop := mkInv {
  inv_live_good : Forall good_robot (live_robots_ m);
  inv_dead_good : Forall good_robot (dead_robots_ m);
  inv_time : u32 (last_time_ m);
  inv_live_blood : Forall (fun r => 0 < blood_ r) (live_robots_ m);
  inv_dead_blood : Forall (fun r => blood_ r = 0) (dead_robots_ m);
  inv_live_unique : NoDup (map GetId (live_robots_ m));
  inv_disjoint :
    forall x y, In x (live_robots_ m) -> In y (dead_robots_ m) ->
                GetId x = GetId y -> class_of x <> class_of y
}.

(** A live vector in which [x] is the first robot with the two ids. *)
Definition first_at (team robot : Z) (l1 : list BaseRobot) (x : BaseRobot)
  (l2 live : list BaseRobot) : Prop :=
  live = l1 ++ x :: l2 /\
  Forall (fun y => has_id team robot y = false) l1 /\
  GetId x = (team, robot).

(** The blood of the robot with the two ids as the manager sees it: that of
    its live object, and 0 when it has none (a destroyed object has blood 0
    by [inv_dead_blood]). *)
Definition health_of (team robot : Z) (m : RobotManager) : Z :=
  match FindLiveRobot team robot m with
  | Some x => blood_ x
  | None => 0
  end.

(** The values of [health_of] after each command of a run of commands F on
    one robot. *)
Fixpoint damage_trace (team robot : Z) (ds : list Z) (m : RobotManager)
  : list Z :=
  match ds with
  | [] => []
  | d :: ds' =>
      let m' := HandleCommandF team robot d m in
      health_of team robot m' :: damage_trace team robot ds' m'
  end.

(** ** Sample states *)

(** The robot of the decay example: a level-1 infantry with heat 150 and
    blood 80. *)
Definition hot_infantry : BaseRobot :=
  set_blood 80 (set_heat 150 (InfantryRobot 1 1)).

(** A level-2 infantry that has been hit and heated. *)
Definition level2_infantry : BaseRobot :=
  set_blood 70 (set_heat 40 (snd (Upgrade 2 (InfantryRobot 1 1)))).

(** The state after [A 1 1 0] and [H 1 1 4294967295]. *)
Definition saturated : RobotManager :=
  HandleCommandH 1 1 4294967295 (HandleCommandA 1 1 kInfantry init).

(** The infantry (1, 5) with no blood left. *)
Definition killed_infantry : BaseRobot := set_blood 0 (InfantryRobot 1 5).

(** After [A 1 5 0] and [F 1 5 100]: the infantry (1, 5) is destroyed. *)
Definition after_kill : RobotManager :=
  HandleCommandF 1 5 100 (HandleCommandA 1 5 kInfantry init).

(** Then [A 1 5 1]: a live engineer beside the destroyed infantry. *)
Definition mixed : RobotManager := HandleCommandA 1 5 kEngineer after_kill.

Definition one_infantry : RobotManager := HandleCommandA 1 1 kInfantry init.

Definition one_engineer : RobotManager := HandleCommandA 1 2 kEngineer init.

(** The first two records of the scenario: [0 A 1 1 0] and [50 H 1 1 150]. *)
Definition heated : RobotManager :=
  run [mkCommand 0 "A" 1 1 0; mkCommand 50 "H" 1 1 150] init.

(** ** Vocabulary of the further properties *)

(** What [FindDeadRobot] looks at in a destroyed robot: the two ids and the
    class. *)
Definition dead_key (r : BaseRobot) : Z * Z * RobotClass :=
  (GetId r, class_of r).

(** A robot that a clock advance by [e] destroys: once cooled by [e] its heat
    is still above the limit, and its blood is at most [e]. *)
Definition dies_by (e : Z) (r : BaseRobot) : bool :=
  (heat_ r - e >? max_heat_ r) && (blood_ r <=? e).

(** The robot that the last branch of [HandleCommandA] builds for a type. *)
Definition fresh_robot (team robot : Z) (ty : RobotType) : option BaseRobot :=
  if ty =? kInfantry then Some (InfantryRobot team robot)
  else if ty =? kEngineer then Some (EngineerRobot team robot)
  else None.

(** Two infantries at level 1 and an engineer, all live, at time 10; the
    first infantry carries heat 1000. *)
Definition squad : RobotManager :=
  run [mkCommand 0 "A" 1 1 0; mkCommand 0 "A" 1 2 1; mkCommand 0 "A" 2 1 0;
       mkCommand 10 "H" 1 1 1000] init.

(** * Properties *)

(** ** Machine arithmetic *)

Lemma wrap32_small (z : Z) : u32 z -> wrap32 z = z.
Proof. intros H. apply Z.mod_small. exact H. Qed.

Lemma wrap32_u32 (z : Z) : u32 (wrap32 z).
Proof. unfold u32, wrap32. apply Z.mod_pos_bound. lia. Qed.

(** A guarded subtraction never wraps. *)
Lemma guarded_sub (a b : Z) :
  u32 a -> 0 <= b ->
  (if a >? b then wrap32 (a - b) else 0) = Z.max (a - b) 0.
Proof.
  intros Ha Hb. destruct (Z.gtb_spec a b).
  - rewrite wrap32_small by (unfold u32 in *; lia). lia.
  - lia.
Qed.

Lemma guarded_sub_u32 (a b : Z) :
  u32 a -> 0 <= b -> u32 (Z.max (a - b) 0).
Proof. unfold u32. lia. Qed.

(** ** The decay step *)

Lemma ChangeHeat_heat (e : Z) (r : BaseRobot) :
  u32 (heat_ r) -> 0 <= e ->
  heat_ (ChangeHeat e r) = Z.max (heat_ r - e) 0.
Proof.
  intros Hh He. unfold ChangeHeat. cbn [heat_ max_heat_ blood_ set_heat].
  rewrite guarded_sub by assumption.
  destruct (_ >? max_heat_ r); reflexivity.
Qed.

Lemma ChangeHeat_blood (e : Z) (r : BaseRobot) :
  u32 (heat_ r) -> u32 (blood_ r) -> 0 <= e ->
  blood_ (ChangeHeat e r) =
  if Z.max (heat_ r - e) 0 >? max_heat_ r
  then Z.max (blood_ r - e) 0 else blood_ r.
Proof.
  intros Hh Hb He. unfold ChangeHeat. cbn [heat_ max_heat_ blood_ set_heat].
  rewrite !guarded_sub by assumption.
  destruct (_ >? max_heat_ r); reflexivity.
Qed.

(** The decay step touches nothing but heat and blood. *)
Lemma ChangeHeat_frame (e : Z) (r : BaseRobot) :
  team_id (ChangeHeat e r) = team_id r /\
  robot_id (ChangeHeat e r) = robot_id r /\
  max_heat_ (ChangeHeat e r) = max_heat_ r /\
  level_ (ChangeHeat e r) = level_ r /\
  max_blood_ (ChangeHeat e r) = max_blood_ r /\
  type (ChangeHeat e r) = type r /\
  class_of (ChangeHeat e r) = class_of r.
Proof.
  unfold ChangeHeat. cbn [heat_ max_heat_ blood_ set_heat].
  destruct (_ >? max_heat_ r); cbn; repeat split.
Qed.

Lemma ChangeHeat_GetId (e : Z) (r : BaseRobot) :
  GetId (ChangeHeat e r) = GetId r.
Proof.
  unfold GetId. destruct (ChangeHeat_frame e r) as (-> & -> & _). reflexivity.
Qed.

Lemma ChangeHeat_wf (e : Z) (r : BaseRobot) :
  wf_robot r -> 0 <= e -> wf_robot (ChangeHeat e r).
Proof.
  intros (H1 & H2 & H3 & H4 & H5 & H6 & H7) He.
  destruct (ChangeHeat_frame e r) as (E1 & E2 & E3 & E4 & E5 & _).
  unfold wf_robot. rewrite E1, E2, E3, E4, E5.
  rewrite ChangeHeat_heat, ChangeHeat_blood by assumption.
  repeat split; try (apply H1 || apply H2 || apply H4 || apply H5 || apply H6);
    try (apply guarded_sub_u32; assumption);
    match goal with
    | |- context [if ?c then _ else _] =>
        destruct c; [apply guarded_sub_u32; assumption | apply H7]
    end.
Qed.

(** C1.  For a robot with 32-bit attributes and an elapsed time [e > 0],
    [ChangeHeat] sets the heat to [max (heat - e) 0]; if and only if this
    new heat is strictly above [max_heat_] the blood becomes
    [max (blood - e) 0], the elapsed time being the damage, and otherwise the
    blood is unchanged; no other attribute changes.  A level-1 infantry with
    heat 150 and blood 80 has heat 120 and blood 50 after 30 time units. *)
Theorem ChangeHeat_decay_law :
  (forall (r : BaseRobot) (e : Z),
      wf_robot r -> u32 e -> 0 < e ->
      let r' := ChangeHeat e r in
      heat_ r' = Z.max (heat_ r - e) 0 /\
      (heat_ r' > max_heat_ r -> blood_ r' = Z.max (blood_ r - e) 0) /\
      (heat_ r' <= max_heat_ r -> blood_ r' = blood_ r) /\
      max_heat_ r' = max_heat_ r /\ max_blood_ r' = max_blood_ r /\
      level_ r' = level_ r /\ GetId r' = GetId r /\
      class_of r' = class_of r) /\
  (class_of hot_infantry = Infantry /\ level_ hot_infantry = 1 /\
   max_heat_ hot_infantry = 100 /\
   heat_ hot_infantry = 150 /\ blood_ hot_infantry = 80 /\
   heat_ (ChangeHeat 30 hot_infantry) = 120 /\
   blood_ (ChangeHeat 30 hot_infantry) = 50).
Proof.
  split.
  - intros r e (H1 & H2 & H3 & H4 & H5 & H6 & H7) He Hpos r'. subst r'.
    assert (0 <= e) as He0 by lia.
    destruct (ChangeHeat_frame e r) as (E1 & E2 & E3 & E4 & E5 & E6 & E7).
    rewrite ChangeHeat_GetId, ChangeHeat_heat, ChangeHeat_blood by assumption.
    repeat split; try assumption.
    + intros Hgt. destruct (Z.gtb_spec (Z.max (heat_ r - e) 0) (max_heat_ r));
        [reflexivity | lia].
    + intros Hle. destruct (Z.gtb_spec (Z.max (heat_ r - e) 0) (max_heat_ r));
        [lia | reflexivity].
  - repeat split.
Qed.

Lemma ChangeHeat_decay_law_witness :
  wf_robot hot_infantry /\ u32 30 /\ 0 < 30 /\
  heat_ (ChangeHeat 30 hot_infantry) = Z.max (heat_ hot_infantry - 30) 0.
Proof.
  assert (wf_robot hot_infantry) as Hwf by (vm_compute; intuition discriminate).
  assert (u32 30) as H30 by (unfold u32; lia).
  assert (0 < 30) as Hpos by lia.
  refine (conj Hwf (conj H30 (conj Hpos _))).
  exact (proj1 (proj1 ChangeHeat_decay_law hot_infantry 30 Hwf H30 Hpos)).
Defined.

(** ** Lists of robots *)

Lemma id_eqb_eq (a b : Z * Z) : id_eqb a b = true <-> a = b.
Proof.
  destruct a as [a1 a2], b as [b1 b2]. unfold id_eqb. cbn.
  rewrite andb_true_iff, !Z.eqb_eq. split.
  - intros [-> ->]. reflexivity.
  - intros H. injection H as -> ->. split; reflexivity.
Qed.

Lemma id_eqb_refl (a : Z * Z) : id_eqb a a = true.
Proof. apply id_eqb_eq. reflexivity. Qed.

Lemma id_eqb_neq (a b : Z * Z) : id_eqb a b = false <-> a <> b.
Proof.
  rewrite <- id_eqb_eq. destruct (id_eqb a b); split; congruence.
Qed.

(** The first match splits the vector: nothing before it matches. *)
Lemma find_split (p : BaseRobot -> bool) (l : list BaseRobot) (x : BaseRobot) :
  find p l = Some x ->
  exists l1 l2, l = l1 ++ x :: l2 /\ Forall (fun y => p y = false) l1 /\
                p x = true.
Proof.
  induction l as [|a l IH]; cbn; [discriminate|].
  destruct (p a) eqn:Ha.
  - intros [= ->]. exists [], l. repeat split; [constructor | assumption].
  - intros H. destruct (IH H) as (l1 & l2 & -> & Hl1 & Hx).
    exists (a :: l1), l2. repeat split; [constructor | ]; assumption.
Qed.

Lemma find_In_some (p : BaseRobot -> bool) (l : list BaseRobot) (x : BaseRobot) :
  In x l -> p x = true -> exists y, find p l = Some y.
Proof.
  intros Hin Hp. destruct (find p l) as [y|] eqn:E; [eauto|].
  rewrite (find_none _ _ E x Hin) in Hp. discriminate.
Qed.

Lemma update_first_split (p : BaseRobot -> bool) (f : BaseRobot -> BaseRobot)
  (l1 l2 : list BaseRobot) (x : BaseRobot) :
  Forall (fun y => p y = false) l1 -> p x = true ->
  update_first p f (l1 ++ x :: l2) = l1 ++ f x :: l2.
Proof.
  intros Hl1 Hx. induction Hl1 as [|a l1 Ha _ IH]; cbn.
  - rewrite Hx. reflexivity.
  - rewrite Ha, IH. reflexivity.
Qed.

Lemma update_first_none (p : BaseRobot -> bool) (f : BaseRobot -> BaseRobot)
  (l : list BaseRobot) :
  find p l = None -> update_first p f l = l.
Proof.
  induction l as [|a l IH]; cbn; [reflexivity|].
  destruct (p a); [discriminate|]. intros H. rewrite IH by assumption.
  reflexivity.
Qed.

Lemma find_app_skip (p : BaseRobot -> bool) (l1 l2 : list BaseRobot) :
  Forall (fun y => p y = false) l1 -> find p (l1 ++ l2) = find p l2.
Proof.
  intros H. induction H as [|a l1 Ha _ IH]; cbn; [reflexivity|].
  rewrite Ha. exact IH.
Qed.

Lemma erase_id_split (team robot : Z) (l1 l2 : list BaseRobot) (x : BaseRobot) :
  Forall (fun y => has_id team robot y = false) l1 ->
  has_id team robot x = true ->
  erase_id team robot (l1 ++ x :: l2) = l1 ++ erase_id team robot l2.
Proof.
  intros Hl1 Hx. unfold erase_id. rewrite filter_app. cbn.
  rewrite Hx. cbn. f_equal.
  induction Hl1 as [|a l1 Ha _ IH]; cbn; [reflexivity|].
  rewrite Ha. cbn. f_equal. exact IH.
Qed.

Lemma erase_id_id (team robot : Z) (l : list BaseRobot) :
  Forall (fun y => has_id team robot y = false) l -> erase_id team robot l = l.
Proof.
  intros H. unfold erase_id. induction H as [|a l Ha _ IH]; cbn; [reflexivity|].
  rewrite Ha. cbn. f_equal. exact IH.
Qed.

Lemma erase_id_In (team robot : Z) (l : list BaseRobot) (y : BaseRobot) :
  In y (erase_id team robot l) <-> In y l /\ GetId y <> (team, robot).
Proof.
  unfold erase_id, has_id. rewrite filter_In, negb_true_iff, id_eqb_neq. tauto.
Qed.

(** With distinct ids a match is the only one. *)
Lemma NoDup_ids_split (team robot : Z) (l1 l2 : list BaseRobot) (x : BaseRobot) :
  NoDup (map GetId (l1 ++ x :: l2)) -> GetId x = (team, robot) ->
  Forall (fun y => has_id team robot y = false) (l1 ++ l2).
Proof.
  rewrite map_app. cbn. intros Hnd Hx.
  apply NoDup_remove_2 in Hnd. rewrite <- map_app in Hnd.
  apply Forall_forall. intros y Hy. unfold has_id. apply id_eqb_neq.
  intros E. apply Hnd. rewrite Hx, <- E. apply in_map. exact Hy.
Qed.

(** The loop of [HandleTimeChange], read as a whole: every robot decays; the
    dead ones leave in the order of the vector. *)
Lemma time_loop_spec (e : Z) (live dead : list BaseRobot) (out : list (Z * Z)) :
  time_loop e live dead out =
  (filter (fun r => negb (IsDead r)) (map (ChangeHeat e) live),
   dead ++ filter IsDead (map (ChangeHeat e) live),
   out ++ map GetId (filter IsDead (map (ChangeHeat e) live))).
Proof.
  revert dead out. induction live as [|r rest IH]; intros dead out; cbn.
  - rewrite !app_nil_r. reflexivity.
  - destruct (IsDead (ChangeHeat e r)) eqn:Hd; cbn.
    + rewrite IH, <- !app_assoc. reflexivity.
    + rewrite IH. reflexivity.
Qed.

Lemma IsDead_zero (r : BaseRobot) : u32 (blood_ r) -> IsDead r = (blood_ r =? 0).
Proof.
  unfold IsDead, u32. intros H.
  destruct (Z.leb_spec (blood_ r) 0), (Z.eqb_spec (blood_ r) 0); lia || reflexivity.
Qed.

(** ** Time advancement *)

Lemma HandleTimeChange_late (t : Z) (m : RobotManager) :
  t <= last_time_ m -> HandleTimeChange t m = m.
Proof.
  intros H. unfold HandleTimeChange.
  destruct (Z.leb_spec t (last_time_ m)); [reflexivity | lia].
Qed.

Lemma HandleTimeChange_advance (t : Z) (m : RobotManager) :
  u32 t -> u32 (last_time_ m) -> last_time_ m < t ->
  HandleTimeChange t m =
  let decayed := map (ChangeHeat (t - last_time_ m)) (live_robots_ m) in
  mkManager (filter (fun r => negb (IsDead r)) decayed)
            (dead_robots_ m ++ filter IsDead decayed)
            t
            (cout m ++ map GetId (filter IsDead decayed)).
Proof.
  intros Ht Hl Hlt. unfold HandleTimeChange.
  destruct (Z.leb_spec t (last_time_ m)); [lia|].
  rewrite wrap32_small by (unfold u32 in *; lia).
  rewrite time_loop_spec. reflexivity.
Qed.

(** C4.  [HandleTimeChange] at a time not after [last_time_] leaves the
    whole state as it is (no decay, no output).  At a later time every live
    robot decays by the elapsed time; those whose blood is then 0 leave the
    live vector for the end of the destroyed vector and one line per such
    robot is written, all in the order of the live vector; the others stay
    in their order; [last_time_] becomes the new time.  In both cases
    [last_time_] does not decrease. *)
Theorem HandleTimeChange_spec (m : RobotManager) (t : Z) :
  u32 t -> u32 (last_time_ m) -> Forall wf_robot (live_robots_ m) ->
  let m' := HandleTimeChange t m in
  (t <= last_time_ m -> m' = m) /\
  (last_time_ m < t ->
   let decayed := map (ChangeHeat (t - last_time_ m)) (live_robots_ m) in
   let killed := filter (fun r => blood_ r =? 0) decayed in
   live_robots_ m' = filter (fun r => negb (blood_ r =? 0)) decayed /\
   dead_robots_ m' = dead_robots_ m ++ killed /\
   cout m' = cout m ++ map GetId killed /\
   last_time_ m' = t) /\
  last_time_ m <= last_time_ m'.
Proof.
  intros Ht Hl Hwf m'. subst m'. split; [|split].
  - apply HandleTimeChange_late.
  - intros Hlt. rewrite HandleTimeChange_advance by assumption. cbn.
    assert (forall r, In r (map (ChangeHeat (t - last_time_ m)) (live_robots_ m)) ->
                      IsDead r = (blood_ r =? 0)) as Hdead.
    { intros r Hr. apply in_map_iff in Hr. destruct Hr as (x & <- & Hx).
      apply IsDead_zero. rewrite Forall_forall in Hwf.
      apply ChangeHeat_wf; [apply Hwf; exact Hx | lia]. }
    rewrite (filter_ext_in _ _ _ Hdead).
    rewrite (filter_ext_in (fun r => negb (IsDead r))
                           (fun r => negb (blood_ r =? 0))).
    + repeat split.
    + intros r Hr. rewrite (Hdead r Hr). reflexivity.
  - destruct (Z.leb_spec t (last_time_ m)) as [Hle|Hlt].
    + rewrite HandleTimeChange_late by assumption. lia.
    + rewrite HandleTimeChange_advance by assumption. cbn. lia.
Qed.

(** ** The command A *)

Lemma FindLiveRobot_In (team robot : Z) (m : RobotManager) (x : BaseRobot) :
  In x (live_robots_ m) -> GetId x = (team, robot) ->
  exists y, FindLiveRobot team robot m = Some y.
Proof.
  intros Hin Hid. apply (find_In_some _ _ x Hin).
  unfold has_id. rewrite Hid. apply id_eqb_refl.
Qed.

Lemma FindLiveRobot_None (team robot : Z) (m : RobotManager) :
  FindLiveRobot team robot m = None <->
  forall x, In x (live_robots_ m) -> GetId x <> (team, robot).
Proof.
  split.
  - intros H x Hx. apply id_eqb_neq. exact (find_none _ _ H x Hx).
  - intros H. destruct (FindLiveRobot team robot m) as [y|] eqn:E; [|reflexivity].
    apply find_some in E. destruct E as [Hy Hid].
    apply id_eqb_eq in Hid. destruct (H y Hy Hid).
Qed.

Lemma FindLiveRobot_Some (team robot : Z) (m : RobotManager) (x : BaseRobot) :
  FindLiveRobot team robot m = Some x ->
  In x (live_robots_ m) /\ GetId x = (team, robot).
Proof.
  intros H. apply find_some in H. destruct H as [Hin Hid].
  split; [exact Hin | apply id_eqb_eq; exact Hid].
Qed.

Lemma FindDeadRobot_Some (team robot : Z) (ty : RobotType) (m : RobotManager)
  (d : BaseRobot) :
  FindDeadRobot team robot ty m = Some d ->
  In d (dead_robots_ m) /\ GetId d = (team, robot) /\ GetType d = ty.
Proof.
  intros H. apply find_some in H. destruct H as [Hin H].
  apply andb_true_iff in H. destruct H as [Hid Hty].
  repeat split; [exact Hin | apply id_eqb_eq; exact Hid | apply Z.eqb_eq; exact Hty].
Qed.

Lemma FindDeadRobot_None (team robot : Z) (ty : RobotType) (m : RobotManager) :
  FindDeadRobot team robot ty m = None <->
  forall d, In d (dead_robots_ m) -> GetId d = (team, robot) -> GetType d <> ty.
Proof.
  split.
  - intros H d Hd Hid Hty. pose proof (find_none _ _ H d Hd) as E. cbn in E.
    unfold has_id in E. rewrite Hid, id_eqb_refl, Hty, Z.eqb_refl in E.
    discriminate.
  - intros H. destruct (FindDeadRobot team robot ty m) as [d|] eqn:E; [|reflexivity].
    apply FindDeadRobot_Some in E. destruct E as (Hd & Hid & Hty).
    destruct (H d Hd Hid Hty).
Qed.

(** [Rebuild] keeps the identity, the class and the level, and refills. *)
Lemma Rebuild_spec (r : BaseRobot) :
  let r' := Rebuild r in
  GetId r' = GetId r /\ class_of r' = class_of r /\ type r' = type r /\
  level_ r' = level_ r /\ heat_ r' = 0 /\ blood_ r' = max_blood_ r' /\
  match class_of r with
  | Infantry => (max_blood_ r', max_heat_ r') = level_caps (level_ r)
  | Engineer => max_blood_ r' = 300 /\ max_heat_ r' = 0
  end.
Proof.
  unfold Rebuild, Infantry_Rebuild, Engineer_Rebuild, level_caps.
  destruct (class_of r) eqn:Hc; cbn.
  - destruct (level_ r =? 1); [|destruct (level_ r =? 2); [|destruct (level_ r =? 3)]];
      cbn; rewrite ?Hc; repeat split.
  - rewrite Hc. repeat split.
Qed.

(** C7.  When a live robot carries the two ids, the command A changes
    nothing at all, whatever the type operand: live vector, destroyed vector,
    clock and output are the same. *)
Theorem HandleCommandA_live_noop (m : RobotManager) (team robot : Z)
  (ty : RobotType) (x : BaseRobot) :
  In x (live_robots_ m) -> GetId x = (team, robot) ->
  HandleCommandA team robot ty m = m.
Proof.
  intros Hin Hid. unfold HandleCommandA.
  destruct (FindLiveRobot_In team robot m x Hin Hid) as [y ->]. reflexivity.
Qed.

(** C3.  When no live robot carries the two ids and some destroyed robot
    carries them with the type of the command, the command A takes such a
    destroyed robot [d] (the first one), puts it at the end of the live
    vector refilled by [Rebuild]: blood equal to the maximal blood, heat 0,
    the level it had (the caps being those of that level for an infantry),
    and drops from the destroyed vector every entry with the two ids,
    whatever its class. *)
Theorem HandleCommandA_revive (m : RobotManager) (team robot : Z)
  (ty : RobotType) (d0 : BaseRobot) :
  FindLiveRobot team robot m = None ->
  In d0 (dead_robots_ m) -> GetId d0 = (team, robot) -> GetType d0 = ty ->
  let m' := HandleCommandA team robot ty m in
  exists d d',
    In d (dead_robots_ m) /\ GetId d = (team, robot) /\ GetType d = ty /\
    live_robots_ m' = live_robots_ m ++ [d'] /\
    GetId d' = (team, robot) /\ class_of d' = class_of d /\
    blood_ d' = max_blood_ d' /\ heat_ d' = 0 /\ level_ d' = level_ d /\
    match class_of d with
    | Infantry => (max_blood_ d', max_heat_ d') = level_caps (level_ d)
    | Engineer => max_blood_ d' = 300 /\ max_heat_ d' = 0
    end /\
    dead_robots_ m' = erase_id team robot (dead_robots_ m) /\
    (forall y, In y (dead_robots_ m') <->
               In y (dead_robots_ m) /\ GetId y <> (team, robot)) /\
    last_time_ m' = last_time_ m /\ cout m' = cout m.
Proof.
  intros Hlive Hd0 Hid0 Hty0 m'. subst m'. unfold HandleCommandA. rewrite Hlive.
  destruct (FindDeadRobot team robot ty m) as [d|] eqn:E.
  - pose proof (FindDeadRobot_Some _ _ _ _ _ E) as (Hd & Hid & Hty).
    destruct (Rebuild_spec d) as (R1 & R2 & R3 & R4 & R5 & R6 & R7).
    exists d, (Rebuild d). cbn [live_robots_ dead_robots_ last_time_ cout].
    rewrite R1.
    repeat match goal with |- _ /\ _ => split end;
      try assumption; try reflexivity.
    intros y. apply erase_id_In.
  - rewrite FindDeadRobot_None in E. destruct (E d0 Hd0 Hid0 Hty0).
Qed.

Lemma GetType_Engineer (r : BaseRobot) :
  GetType r = kEngineer <-> class_of r = Engineer.
Proof. unfold GetType. destruct (class_of r); cbv; split; congruence. Qed.

Lemma GetType_Infantry (r : BaseRobot) :
  GetType r = kInfantry <-> class_of r = Infantry.
Proof. unfold GetType. destruct (class_of r); cbv; split; congruence. Qed.

(** C2, as amended.  With no live robot for the two ids and a destroyed
    infantry for them, the command A with the engineer type never revives the
    infantry: the robot appended to the live vector is an engineer with blood
    300 and heat 0.  When no destroyed engineer carries the two ids, it is a
    newly built engineer and the destroyed vector is left as it is, the
    infantry entry included; when one does, that engineer is revived and all
    destroyed entries with the two ids are dropped. *)
Theorem HandleCommandA_cross_kind (m : RobotManager) (team robot : Z)
  (inf : BaseRobot) :
  FindLiveRobot team robot m = None ->
  In inf (dead_robots_ m) -> GetId inf = (team, robot) ->
  class_of inf = Infantry ->
  let m' := HandleCommandA team robot kEngineer m in
  (exists e, live_robots_ m' = live_robots_ m ++ [e] /\
             GetId e = (team, robot) /\ class_of e = Engineer /\
             blood_ e = 300 /\ max_blood_ e = 300 /\
             heat_ e = 0 /\ max_heat_ e = 0) /\
  match FindDeadRobot team robot kEngineer m with
  | None =>
      live_robots_ m' = live_robots_ m ++ [EngineerRobot team robot] /\
      dead_robots_ m' = dead_robots_ m /\ In inf (dead_robots_ m')
  | Some d =>
      In d (dead_robots_ m) /\ class_of d = Engineer /\
      live_robots_ m' = live_robots_ m ++ [Rebuild d] /\
      dead_robots_ m' = erase_id team robot (dead_robots_ m) /\
      ~ In inf (dead_robots_ m')
  end.
Proof.
  intros Hlive Hin Hid Hc m'. subst m'. unfold HandleCommandA. rewrite Hlive.
  destruct (FindDeadRobot team robot kEngineer m) as [d|] eqn:E.
  - pose proof (FindDeadRobot_Some _ _ _ _ _ E) as (Hd & Hdid & Hty).
    apply GetType_Engineer in Hty.
    destruct (Rebuild_spec d) as (R1 & R2 & _ & _ & R5 & R6 & R7).
    rewrite Hty in R7. destruct R7 as [R7 R8].
    cbn [live_robots_ dead_robots_]. split.
    + exists (Rebuild d). rewrite R1, R2, R6, R7.
      repeat split; assumption.
    + repeat split; try assumption.
      rewrite erase_id_In. tauto.
  - cbn. split.
    + exists (EngineerRobot team robot). repeat split.
    + repeat split. exact Hin.
Qed.

(** C2, as stated, fails: after the infantry (1, 5) has been destroyed, the
    command A for an engineer (1, 5) leaves the infantry entry in the
    destroyed vector. *)
Lemma stale_infantry_entry_survives :
  ~ (forall (m : RobotManager) (team robot : Z),
        (exists inf, In inf (dead_robots_ m) /\ GetId inf = (team, robot) /\
                     class_of inf = Infantry) ->
        (forall x, In x (live_robots_ m) -> GetId x <> (team, robot)) ->
        let m' := HandleCommandA team robot kEngineer m in
        (exists e, In e (live_robots_ m') /\ GetId e = (team, robot) /\
                   class_of e = Engineer) /\
        (forall y, In y (dead_robots_ m') -> GetId y = (team, robot) ->
                   class_of y <> Infantry)).
Proof.
  intros H.
  pose (m := HandleCommandF 1 5 100 (HandleCommandA 1 5 kInfantry init)).
  specialize (H m 1 5).
  assert (In (set_blood 0 (InfantryRobot 1 5)) (dead_robots_ m)) as Hin
      by (left; reflexivity).
  destruct H as [_ H].
  - exists (set_blood 0 (InfantryRobot 1 5)). repeat split. exact Hin.
  - intros x [].
  - apply (H (set_blood 0 (InfantryRobot 1 5))); try reflexivity.
    left. reflexivity.
Qed.

(** ** Robots built by the program *)

Ltac break_good :=
  unfold good_robot, wf_robot, u32, GetType, level_caps in *; cbn in *.

Lemma good_ChangeHeat (e : Z) (r : BaseRobot) :
  good_robot r -> 0 <= e -> good_robot (ChangeHeat e r).
Proof.
  intros (Hwf & Hty & Hb & Hc) He.
  pose proof (ChangeHeat_wf e r Hwf He) as Hwf'.
  destruct Hwf as (H1 & H2 & H3 & H4 & H5 & H6 & H7).
  destruct (ChangeHeat_frame e r) as (E1 & E2 & E3 & E4 & E5 & E6 & E7).
  pose proof (ChangeHeat_heat e r H3 He) as Eh.
  pose proof (ChangeHeat_blood e r H3 H7 He) as Eb.
  unfold good_robot, GetType. rewrite E3, E4, E5, E6, E7, Eh, Eb.
  repeat match goal with |- _ /\ _ => split end; try assumption.
  - destruct (_ >? max_heat_ r); unfold u32 in *; lia.
  - destruct (class_of r); [exact Hc|].
    destruct Hc as (? & ? & ? & Hh). rewrite Hh. repeat split; try assumption. lia.
Qed.

Lemma good_InfantryRobot (team robot : Z) :
  u32 team -> u32 robot -> good_robot (InfantryRobot team robot).
Proof. intros Ht Hr. break_good. repeat split; lia. Qed.

Lemma good_EngineerRobot (team robot : Z) :
  u32 team -> u32 robot -> good_robot (EngineerRobot team robot).
Proof. intros Ht Hr. break_good. repeat split; lia. Qed.

Lemma good_Infantry_Rebuild (r : BaseRobot) :
  u32 (team_id r) -> u32 (robot_id r) -> 1 <= level_ r <= 3 ->
  type r = kInfantry -> class_of r = Infantry ->
  good_robot (Infantry_Rebuild r).
Proof.
  intros Ht Hr Hl Hty Hc. unfold Infantry_Rebuild. break_good.
  destruct (Z.eqb_spec (level_ r) 1) as [E|N1];
    [|destruct (Z.eqb_spec (level_ r) 2) as [E|N2];
      [|destruct (Z.eqb_spec (level_ r) 3) as [E|N3]]];
    cbn; rewrite Hc;
    repeat match goal with |- _ /\ _ => split end;
    try assumption; try reflexivity; try lia;
    rewrite E; reflexivity.
Qed.

Lemma good_Rebuild (r : BaseRobot) : good_robot r -> good_robot (Rebuild r).
Proof.
  intros (Hwf & Hty & Hb & Hc). unfold Rebuild.
  destruct Hwf as (H1 & H2 & H3 & H4 & H5 & H6 & H7).
  unfold GetType in Hty. destruct (class_of r) eqn:Ec.
  - apply good_Infantry_Rebuild; tauto.
  - unfold Engineer_Rebuild. break_good. rewrite Ec.
    repeat match goal with |- _ /\ _ => split end;
      try assumption; try reflexivity; try lia.
Qed.

Lemma good_Upgrade (l : Z) (r : BaseRobot) :
  good_robot r -> class_of r = Infantry -> u32 l ->
  good_robot (snd (Upgrade l r)).
Proof.
  intros Hg Hc Hl. unfold Upgrade.
  destruct (Z.gtb_spec l (level_ r)); cbn [andb]; [|exact Hg].
  destruct (Z.leb_spec l 3); cbn [snd]; [|exact Hg].
  destruct Hg as (Hwf & Hty & Hb & Hcaps).
  destruct Hwf as (H1 & H2 & H3 & H4 & H5 & H6 & H7).
  unfold GetType in Hty. rewrite Hc in Hty, Hcaps.
  apply good_Infantry_Rebuild; cbn; try assumption. lia.
Qed.

Lemma good_AddHeat (h : Z) (r : BaseRobot) :
  good_robot r -> class_of r = Infantry -> good_robot (AddHeat h r).
Proof.
  intros (Hwf & Hty & Hb & Hcaps) Hc.
  destruct Hwf as (H1 & H2 & H3 & H4 & H5 & H6 & H7).
  unfold good_robot, wf_robot, GetType in *. cbn. rewrite Hc in *.
  repeat match goal with |- _ /\ _ => split end; try tauto.
  apply wrap32_u32.
Qed.

Lemma good_set_blood (b : Z) (r : BaseRobot) :
  good_robot r -> 0 <= b <= blood_ r -> good_robot (set_blood b r).
Proof.
  intros (Hwf & Hty & Hb & Hcaps) Hle.
  destruct Hwf as (H1 & H2 & H3 & H4 & H5 & H6 & H7).
  unfold good_robot, wf_robot, GetType in *. cbn.
  repeat match goal with |- _ /\ _ => split end; try tauto; try lia.
  unfold u32 in *. lia.
Qed.

(** ** Commands that address a live robot *)

Lemma FindLiveRobot_first_at (team robot : Z) (m : RobotManager) (x : BaseRobot) :
  FindLiveRobot team robot m = Some x ->
  exists l1 l2, first_at team robot l1 x l2 (live_robots_ m).
Proof.
  intros H. destruct (find_split _ _ _ H) as (l1 & l2 & E & Hl1 & Hx).
  exists l1, l2. repeat split; try assumption. apply id_eqb_eq. exact Hx.
Qed.

Lemma first_at_find (team robot : Z) (m : RobotManager) l1 x l2 :
  first_at team robot l1 x l2 (live_robots_ m) ->
  FindLiveRobot team robot m = Some x.
Proof.
  intros (E & Hl1 & Hx). unfold FindLiveRobot. rewrite E.
  rewrite find_app_skip by assumption. cbn.
  unfold has_id. rewrite Hx, id_eqb_refl. reflexivity.
Qed.

Lemma first_at_update (team robot : Z) (f : BaseRobot -> BaseRobot) l1 x l2 live :
  first_at team robot l1 x l2 live ->
  update_first (has_id team robot) f live = l1 ++ f x :: l2.
Proof.
  intros (E & Hl1 & Hx). rewrite E. apply update_first_split; [assumption|].
  unfold has_id. rewrite Hx. apply id_eqb_refl.
Qed.

Lemma HandleCommandF_found (team robot damage : Z) (m : RobotManager) l1 x l2 :
  first_at team robot l1 x l2 (live_robots_ m) ->
  u32 (blood_ x) -> 0 < blood_ x -> 0 <= damage ->
  HandleCommandF team robot damage m =
  if blood_ x <=? damage
  then mkManager (l1 ++ erase_id team robot l2)
                 (dead_robots_ m ++ [set_blood 0 x])
                 (last_time_ m) (cout m ++ [(team, robot)])
  else mkManager (l1 ++ set_blood (blood_ x - damage) x :: l2)
                 (dead_robots_ m) (last_time_ m) (cout m).
Proof.
  intros Hat Hb Hpos Hd. unfold HandleCommandF.
  rewrite (first_at_find _ _ _ _ _ _ Hat).
  rewrite (first_at_update _ _ _ _ _ _ _ Hat).
  destruct Hat as (E & Hl1 & Hx).
  unfold IsDead at 1. destruct (Z.leb_spec (blood_ x) 0); [lia|].
  rewrite guarded_sub by assumption.
  unfold IsDead. cbn [blood_ set_blood GetId team_id robot_id].
  unfold GetId in Hx. injection Hx as Ht Hr. rewrite Ht, Hr.
  destruct (Z.leb_spec (blood_ x) damage).
  - replace (Z.max (blood_ x - damage) 0) with 0 by lia. cbn [Z.leb Z.compare].
    rewrite erase_id_split; [reflexivity | assumption |].
    unfold has_id, GetId. cbn. rewrite Ht, Hr. apply id_eqb_refl.
  - replace (Z.max (blood_ x - damage) 0) with (blood_ x - damage) by lia.
    destruct (Z.leb_spec (blood_ x - damage) 0); [lia | reflexivity].
Qed.

Lemma HandleCommandF_missing (team robot damage : Z) (m : RobotManager) :
  FindLiveRobot team robot m = None -> HandleCommandF team robot damage m = m.
Proof. intros H. unfold HandleCommandF. rewrite H. reflexivity. Qed.

Lemma HandleCommandH_found (team robot add_heat : Z) (m : RobotManager) l1 x l2 :
  first_at team robot l1 x l2 (live_robots_ m) ->
  HandleCommandH team robot add_heat m =
  match class_of x with
  | Infantry => mkManager (l1 ++ AddHeat add_heat x :: l2)
                          (dead_robots_ m) (last_time_ m) (cout m)
  | Engineer => m
  end.
Proof.
  intros Hat. unfold HandleCommandH.
  rewrite (first_at_find _ _ _ _ _ _ Hat).
  rewrite (first_at_update _ _ _ _ _ _ _ Hat).
  unfold GetType. destruct (class_of x); reflexivity.
Qed.

Lemma HandCommandU_found (team robot target_level : Z) (m : RobotManager) l1 x l2 :
  first_at team robot l1 x l2 (live_robots_ m) ->
  HandCommandU team robot target_level m =
  match class_of x with
  | Infantry => mkManager (l1 ++ snd (Upgrade target_level x) :: l2)
                          (dead_robots_ m) (last_time_ m) (cout m)
  | Engineer => m
  end.
Proof.
  intros Hat. unfold HandCommandU.
  rewrite (first_at_find _ _ _ _ _ _ Hat).
  rewrite (first_at_update _ _ _ _ _ _ _ Hat).
  unfold GetType. destruct (class_of x); reflexivity.
Qed.

(** ** The invariant *)

Lemma NoDup_map_filter {A B : Type} (h : A -> B) (f : A -> bool) (l : list A) :
  NoDup (map h l) -> NoDup (map h (filter f l)).
Proof.
  induction l as [|a l IH]; cbn; intros H; [constructor|].
  inversion H as [|? ? Hn Hnd]; subst. destruct (f a); cbn.
  - constructor; [|apply IH; assumption].
    intros Hin. apply Hn. apply in_map_iff in Hin.
    destruct Hin as (y & Ey & Hy). apply filter_In in Hy.
    rewrite <- Ey. apply in_map. tauto.
  - apply IH. assumption.
Qed.

Lemma NoDup_map_inj {A B : Type} (h : A -> B) (l : list A) (x y : A) :
  NoDup (map h l) -> In x l -> In y l -> h x = h y -> x = y.
Proof.
  induction l as [|a l IH]; cbn; intros H Hx Hy E; [contradiction|].
  inversion H as [|? ? Hn Hnd]; subst.
  destruct Hx as [->|Hx], Hy as [->|Hy]; try reflexivity.
  - destruct Hn. rewrite E. apply in_map. exact Hy.
  - destruct Hn. rewrite <- E. apply in_map. exact Hx.
  - apply IH; assumption.
Qed.

Lemma map_GetId_ChangeHeat (e : Z) (l : list BaseRobot) :
  map GetId (map (ChangeHeat e) l) = map GetId l.
Proof.
  rewrite map_map. apply map_ext. intros r. apply ChangeHeat_GetId.
Qed.

Lemma Inv_init : Inv init.
Proof.
  constructor; cbn; try (constructor; fail); try (unfold u32; lia);
    intros x y [].
Qed.

Lemma Inv_HandleTimeChange (t : Z) (m : RobotManager) :
  Inv m -> u32 t -> Inv (HandleTimeChange t m).
Proof.
  intros HI Ht. destruct (Z.leb_spec t (last_time_ m)) as [Hle|Hlt].
  { rewrite HandleTimeChange_late by assumption. exact HI. }
  destruct HI as [Hlg Hdg Hlast Hlb Hdb Hnd Hdis].
  rewrite HandleTimeChange_advance by assumption.
  set (e := t - last_time_ m). assert (0 <= e) as He by (subst e; lia).
  rewrite Forall_forall in Hlg, Hlb.
  assert (forall x', In x' (map (ChangeHeat e) (live_robots_ m)) ->
                     exists x, x' = ChangeHeat e x /\ In x (live_robots_ m) /\
                               good_robot x') as Hdec.
  { intros x' Hx'. apply in_map_iff in Hx'. destruct Hx' as (x & <- & Hx).
    exists x. split; [reflexivity|]. split; [exact Hx|].
    apply good_ChangeHeat; auto. }
  constructor; cbn [live_robots_ dead_robots_ last_time_ cout].
  - apply Forall_forall. intros x' Hx'. apply filter_In in Hx'.
    destruct (Hdec x' (proj1 Hx')) as (x & _ & _ & Hg). exact Hg.
  - apply Forall_app. split; [exact Hdg|].
    apply Forall_forall. intros x' Hx'. apply filter_In in Hx'.
    destruct (Hdec x' (proj1 Hx')) as (x & _ & _ & Hg). exact Hg.
  - exact Ht.
  - apply Forall_forall. intros x' Hx'. apply filter_In in Hx'.
    destruct Hx' as [_ Hx']. unfold IsDead in Hx'.
    apply negb_true_iff, Z.leb_gt in Hx'. exact Hx'.
  - apply Forall_app. split; [exact Hdb|].
    apply Forall_forall. intros x' Hx'. apply filter_In in Hx'.
    destruct Hx' as [Hin Hx']. destruct (Hdec x' Hin) as (x & _ & _ & Hg).
    unfold IsDead in Hx'. apply Z.leb_le in Hx'.
    destruct Hg as ((_ & _ & _ & _ & _ & _ & Hb) & _). unfold u32 in Hb. lia.
  - apply NoDup_map_filter. rewrite map_GetId_ChangeHeat. exact Hnd.
  - intros x' y' Hx' Hy' Eid. apply filter_In in Hx'. destruct Hx' as [Hx' Hal].
    destruct (Hdec x' Hx') as (x & -> & Hx & _).
    destruct (ChangeHeat_frame e x) as (_ & _ & _ & _ & _ & _ & ->).
    rewrite ChangeHeat_GetId in Eid.
    apply in_app_or in Hy'. destruct Hy' as [Hy'|Hy'].
    + apply Hdis; assumption.
    + apply filter_In in Hy'. destruct Hy' as [Hy' Hde].
      destruct (Hdec y' Hy') as (y & -> & Hy & _).
      rewrite ChangeHeat_GetId in Eid.
      rewrite (NoDup_map_inj GetId _ x y Hnd Hx Hy Eid) in Hal.
      rewrite Hde in Hal. discriminate.
Qed.

Lemma Inv_HandleCommandA (a b ty : Z) (m : RobotManager) :
  Inv m -> u32 a -> u32 b -> Inv (HandleCommandA a b ty m).
Proof.
  intros HI Ha Hb. unfold HandleCommandA.
  destruct (FindLiveRobot a b m) as [x|] eqn:El; [exact HI|].
  rewrite FindLiveRobot_None in El.
  destruct HI as [Hlg Hdg Hlast Hlb Hdb Hnd Hdis].
  assert (forall x, GetId x = (a, b) ->
                    NoDup (map GetId (live_robots_ m ++ [x]))) as Hnd'.
  { intros x Hx. rewrite map_app. apply NoDup_app; [exact Hnd | cbn; constructor; [intros []|constructor] |].
    intros i Hi [<-|[]]. apply in_map_iff in Hi. destruct Hi as (y & Ey & Hy).
    apply (El y Hy). congruence. }
  destruct (FindDeadRobot a b ty m) as [d|] eqn:Ed.
  - apply FindDeadRobot_Some in Ed. destruct Ed as (Hd & Hid & Hty).
    destruct (Rebuild_spec d) as (R1 & R2 & _ & _ & _ & R6 & _).
    assert (good_robot (Rebuild d)) as Hg
        by (apply good_Rebuild; rewrite Forall_forall in Hdg; auto).
    constructor; cbn [live_robots_ dead_robots_ last_time_ cout].
    + apply Forall_app. split; [exact Hlg|]. constructor; [exact Hg|constructor].
    + apply Forall_forall. intros y Hy. apply erase_id_In in Hy.
      rewrite Forall_forall in Hdg. apply Hdg. tauto.
    + exact Hlast.
    + apply Forall_app. split; [exact Hlb|]. constructor; [|constructor].
      rewrite R6. destruct Hg as (_ & _ & _ & Hcaps). rewrite R2 in Hcaps.
      destruct (class_of d).
      * destruct Hcaps as [Hl Hcaps]. unfold level_caps in Hcaps.
        destruct (level_ (Rebuild d) =? 1);
          [|destruct (level_ (Rebuild d) =? 2);
            [|destruct (level_ (Rebuild d) =? 3)]];
          injection Hcaps as -> _; lia.
      * destruct Hcaps as (_ & -> & _). lia.
    + apply Forall_forall. intros y Hy. apply erase_id_In in Hy.
      rewrite Forall_forall in Hdb. apply Hdb. tauto.
    + apply Hnd'. congruence.
    + intros x y Hx Hy Eid. apply erase_id_In in Hy. destruct Hy as [Hy Hny].
      apply in_app_or in Hx. destruct Hx as [Hx|[<-|[]]].
      * apply Hdis; assumption.
      * destruct Hny. congruence.
  - rewrite FindDeadRobot_None in Ed.
    destruct (Z.eqb_spec ty kInfantry) as [->|Hni];
      [|destruct (Z.eqb_spec ty kEngineer) as [->|Hne]].
    + constructor; cbn [live_robots_ dead_robots_ last_time_ cout];
        try assumption.
      * apply Forall_app. split; [exact Hlg|].
        constructor; [apply good_InfantryRobot; assumption|constructor].
      * apply Forall_app. split; [exact Hlb|].
        constructor; [cbn; lia|constructor].
      * apply Hnd'. reflexivity.
      * intros x y Hx Hy Eid. apply in_app_or in Hx.
        destruct Hx as [Hx|[<-|[]]]; [apply Hdis; assumption|].
        change (GetId (InfantryRobot a b)) with (a, b) in Eid.
        change (class_of (InfantryRobot a b)) with Infantry.
        intros Hc. apply (Ed y Hy); [congruence|].
        apply GetType_Infantry. congruence.
    + constructor; cbn [live_robots_ dead_robots_ last_time_ cout];
        try assumption.
      * apply Forall_app. split; [exact Hlg|].
        constructor; [apply good_EngineerRobot; assumption|constructor].
      * apply Forall_app. split; [exact Hlb|].
        constructor; [cbn; lia|constructor].
      * apply Hnd'. reflexivity.
      * intros x y Hx Hy Eid. apply in_app_or in Hx.
        destruct Hx as [Hx|[<-|[]]]; [apply Hdis; assumption|].
        change (GetId (EngineerRobot a b)) with (a, b) in Eid.
        change (class_of (EngineerRobot a b)) with Engineer.
        intros Hc. apply (Ed y Hy); [congruence|].
        apply GetType_Engineer. congruence.
    + constructor; assumption.
Qed.

Lemma In_middle (l1 l2 : list BaseRobot) (x z : BaseRobot) :
  In z (l1 ++ x :: l2) <-> z = x \/ In z (l1 ++ l2).
Proof.
  rewrite !in_app_iff. cbn. intuition congruence.
Qed.

Lemma Forall_middle (P : BaseRobot -> Prop) (l1 l2 : list BaseRobot) (x : BaseRobot) :
  Forall P (l1 ++ x :: l2) <-> P x /\ Forall P (l1 ++ l2).
Proof.
  rewrite !Forall_forall. split.
  - intros H. split; [apply H, In_middle; auto|].
    intros z Hz. apply H, In_middle. auto.
  - intros [Hx H] z Hz. apply In_middle in Hz. destruct Hz as [->|Hz]; auto.
Qed.

Lemma map_GetId_middle (l1 l2 : list BaseRobot) (x x' : BaseRobot) :
  GetId x' = GetId x ->
  map GetId (l1 ++ x' :: l2) = map GetId (l1 ++ x :: l2).
Proof. intros E. rewrite !map_app. cbn. rewrite E. reflexivity. Qed.

(** A live robot is rewritten in place and stays alive. *)
Lemma Inv_replace (m : RobotManager) (l1 l2 : list BaseRobot) (x x' : BaseRobot) :
  Inv m -> live_robots_ m = l1 ++ x :: l2 ->
  GetId x' = GetId x -> class_of x' = class_of x ->
  good_robot x' -> 0 < blood_ x' ->
  Inv (mkManager (l1 ++ x' :: l2) (dead_robots_ m) (last_time_ m) (cout m)).
Proof.
  intros [Hlg Hdg Hlast Hlb Hdb Hnd Hdis] E Eid Ec Hg Hb.
  rewrite E in *.
  constructor; cbn [live_robots_ dead_robots_ last_time_ cout]; try assumption.
  - apply Forall_middle. apply Forall_middle in Hlg. tauto.
  - apply Forall_middle. apply Forall_middle in Hlb. tauto.
  - rewrite (map_GetId_middle _ _ x x' Eid). exact Hnd.
  - intros z y Hz Hy Ezy. apply In_middle in Hz. destruct Hz as [->|Hz].
    + rewrite Ec. apply Hdis; [apply In_middle; auto | exact Hy | congruence].
    + apply Hdis; [apply In_middle; auto | exact Hy | exact Ezy].
Qed.

(** A live robot is rewritten with blood 0 and moved to the destroyed
    vector. *)
Lemma Inv_kill (m : RobotManager) (l1 l2 : list BaseRobot) (x x' : BaseRobot)
  (out : list (Z * Z)) :
  Inv m -> live_robots_ m = l1 ++ x :: l2 ->
  GetId x' = GetId x -> class_of x' = class_of x ->
  good_robot x' -> blood_ x' = 0 ->
  Inv (mkManager (l1 ++ l2) (dead_robots_ m ++ [x']) (last_time_ m) out).
Proof.
  intros [Hlg Hdg Hlast Hlb Hdb Hnd Hdis] E Eid Ec Hg Hb.
  rewrite E in *.
  constructor; cbn [live_robots_ dead_robots_ last_time_ cout]; try assumption.
  - apply Forall_middle in Hlg. tauto.
  - apply Forall_app. split; [exact Hdg|]. constructor; [exact Hg|constructor].
  - apply Forall_middle in Hlb. tauto.
  - apply Forall_app. split; [exact Hdb|]. constructor; [exact Hb|constructor].
  - rewrite map_app in *. cbn in Hnd. apply NoDup_remove_1 in Hnd. exact Hnd.
  - intros z y Hz Hy Ezy. apply in_app_or in Hy. destruct Hy as [Hy|[<-|[]]].
    + apply Hdis; [apply In_middle; auto | exact Hy | exact Ezy].
    + exfalso. rewrite map_app in Hnd. cbn in Hnd. apply NoDup_remove_2 in Hnd.
      apply Hnd. rewrite <- map_app, <- Eid, <- Ezy. apply in_map. exact Hz.
Qed.

(** In a state of the invariant the first match is the only one, is in good
    shape and alive. *)
Lemma Inv_first_at (team robot : Z) (m : RobotManager) l1 x l2 :
  Inv m -> first_at team robot l1 x l2 (live_robots_ m) ->
  good_robot x /\ 0 < blood_ x /\
  Forall (fun y => has_id team robot y = false) l2.
Proof.
  intros [Hlg _ _ Hlb _ Hnd _] (E & Hl1 & Hx). rewrite E in *.
  apply Forall_middle in Hlg. apply Forall_middle in Hlb.
  repeat match goal with |- _ /\ _ => split end; try tauto.
  pose proof (NoDup_ids_split team robot l1 l2 x Hnd Hx) as H.
  apply Forall_app in H. tauto.
Qed.

Lemma Inv_HandleCommandF (a b d : Z) (m : RobotManager) :
  Inv m -> u32 d -> Inv (HandleCommandF a b d m).
Proof.
  intros HI Hd. destruct (FindLiveRobot a b m) as [x|] eqn:El.
  2:{ rewrite HandleCommandF_missing by assumption. exact HI. }
  destruct (FindLiveRobot_first_at _ _ _ _ El) as (l1 & l2 & Hat).
  destruct (Inv_first_at _ _ _ _ _ _ HI Hat) as (Hg & Hpos & Hl2).
  pose proof Hg as ((_ & _ & _ & _ & _ & _ & Hb) & _).
  rewrite (HandleCommandF_found _ _ _ _ _ _ _ Hat Hb Hpos) by (unfold u32 in Hd; lia).
  destruct Hat as (E & Hl1 & Hx).
  destruct (Z.leb_spec (blood_ x) d).
  - rewrite erase_id_id by assumption.
    apply (Inv_kill m l1 l2 x); try assumption; try reflexivity.
    apply good_set_blood; [assumption | lia].
  - apply (Inv_replace m l1 l2 x); try assumption; try reflexivity.
    + apply good_set_blood; [assumption | unfold u32 in Hd; lia].
    + cbn. lia.
Qed.

Lemma Inv_HandleCommandH (a b h : Z) (m : RobotManager) :
  Inv m -> Inv (HandleCommandH a b h m).
Proof.
  intros HI. destruct (FindLiveRobot a b m) as [x|] eqn:El.
  2:{ unfold HandleCommandH. rewrite El. exact HI. }
  destruct (FindLiveRobot_first_at _ _ _ _ El) as (l1 & l2 & Hat).
  destruct (Inv_first_at _ _ _ _ _ _ HI Hat) as (Hg & Hpos & Hl2).
  rewrite (HandleCommandH_found _ _ _ _ _ _ _ Hat).
  destruct (class_of x) eqn:Ec; [|exact HI].
  destruct Hat as (E & Hl1 & Hx).
  apply (Inv_replace m l1 l2 x); try assumption; try reflexivity.
  apply good_AddHeat; assumption.
Qed.

Lemma Upgrade_blood (l : Z) (x : BaseRobot) :
  0 < blood_ x -> 0 < blood_ (snd (Upgrade l x)).
Proof.
  intros H. unfold Upgrade, Infantry_Rebuild.
  destruct ((l >? level_ x) && (l <=? 3)); [|exact H]. cbn.
  destruct (l =? 1); [|destruct (l =? 2); [|destruct (l =? 3)]]; cbn; lia.
Qed.

Lemma Upgrade_frame (l : Z) (x : BaseRobot) :
  GetId (snd (Upgrade l x)) = GetId x /\
  class_of (snd (Upgrade l x)) = class_of x /\
  type (snd (Upgrade l x)) = type x.
Proof.
  unfold Upgrade, Infantry_Rebuild.
  destruct ((l >? level_ x) && (l <=? 3)); [|repeat split]. cbn.
  destruct (l =? 1); [|destruct (l =? 2); [|destruct (l =? 3)]]; repeat split.
Qed.

Lemma Inv_HandCommandU (a b l : Z) (m : RobotManager) :
  Inv m -> u32 l -> Inv (HandCommandU a b l m).
Proof.
  intros HI Hl. destruct (FindLiveRobot a b m) as [x|] eqn:El.
  2:{ unfold HandCommandU. rewrite El. exact HI. }
  destruct (FindLiveRobot_first_at _ _ _ _ El) as (l1 & l2 & Hat).
  destruct (Inv_first_at _ _ _ _ _ _ HI Hat) as (Hg & Hpos & Hl2).
  rewrite (HandCommandU_found _ _ _ _ _ _ _ Hat).
  destruct (class_of x) eqn:Ec; [|exact HI].
  destruct Hat as (E & Hl1 & Hx).
  destruct (Upgrade_frame l x) as (U1 & U2 & _).
  apply (Inv_replace m l1 l2 x); try assumption; try congruence.
  - apply good_Upgrade; assumption.
  - apply Upgrade_blood. exact Hpos.
Qed.

(** Every state the program goes through satisfies the invariant. *)
Lemma reachable_Inv (m : RobotManager) : reachable m -> Inv m.
Proof.
  induction 1.
  - exact Inv_init.
  - apply Inv_HandleTimeChange; assumption.
  - apply Inv_HandleCommandA; assumption.
  - apply Inv_HandleCommandF; assumption.
  - apply Inv_HandleCommandH; assumption.
  - apply Inv_HandCommandU; assumption.
Qed.

Lemma u32_wf_dispatch (c : Command) (m : RobotManager) :
  reachable m -> wf_command c -> reachable (dispatch c m).
Proof.
  intros Hm (Ht & H1 & H2 & H3). unfold dispatch.
  destruct (c_cmd c =? "A")%string; [apply reach_A; assumption|].
  destruct (c_cmd c =? "F")%string; [apply reach_F; assumption|].
  destruct (c_cmd c =? "H")%string; [apply reach_H; assumption|].
  destruct (c_cmd c =? "U")%string; [apply reach_U; assumption|].
  exact Hm.
Qed.

Lemma process_reachable (c : Command) (m : RobotManager) :
  reachable m -> wf_command c -> reachable (process c m).
Proof.
  intros Hm Hc. unfold process. apply u32_wf_dispatch; [|exact Hc].
  apply reach_time; [exact Hm | apply Hc].
Qed.

(** The states of the loop of [main] are among the reachable ones. *)
Lemma run_reachable (cs : list Command) (m : RobotManager) :
  reachable m -> Forall wf_command cs -> reachable (run cs m).
Proof.
  intros Hm Hcs. revert m Hm. induction Hcs as [|c cs Hc _ IH]; intros m Hm.
  - exact Hm.
  - cbn. apply IH. apply process_reachable; assumption.
Qed.

(** ** Live and destroyed robots *)

(** C9.  In every state reached from the empty manager by method calls with
    32-bit operands (in particular by the loop of [main] on any input), a
    live robot and a destroyed robot with the same two ids are of different
    classes, so no (team, robot, class) is on both sides and no robot is in
    both vectors, and the ids of the live vector are pairwise distinct: at
    most one live robot per (team, robot), whatever its class. *)
Theorem live_dead_disjoint :
  (forall m : RobotManager,
      reachable m ->
      (forall x y, In x (live_robots_ m) -> In y (dead_robots_ m) ->
                   GetId x = GetId y -> class_of x <> class_of y) /\
      (forall x, In x (live_robots_ m) -> ~ In x (dead_robots_ m)) /\
      NoDup (map GetId (live_robots_ m)) /\
      (forall x y, In x (live_robots_ m) -> In y (live_robots_ m) ->
                   GetId x = GetId y -> x = y)) /\
  (forall cs : list Command,
      Forall wf_command cs -> reachable (run cs init)).
Proof.
  split.
  - intros m Hm. apply reachable_Inv in Hm.
    destruct Hm as [_ _ _ _ _ Hnd Hdis].
    repeat match goal with |- _ /\ _ => split end.
    + exact Hdis.
    + intros x Hx Hy. exact (Hdis x x Hx Hy eq_refl eq_refl).
    + exact Hnd.
    + intros x y. apply NoDup_map_inj. exact Hnd.
  - intros cs Hcs. apply run_reachable; [constructor | exact Hcs].
Qed.

(** ** Engineers *)

Lemma In_first_at (team robot : Z) (m : RobotManager) (x : BaseRobot) :
  Inv m -> In x (live_robots_ m) -> GetId x = (team, robot) ->
  exists l1 l2, first_at team robot l1 x l2 (live_robots_ m).
Proof.
  intros HI Hin Hid.
  destruct (FindLiveRobot_In team robot m x Hin Hid) as [y Hy].
  destruct (FindLiveRobot_Some _ _ _ _ Hy) as [Hyin Hyid].
  assert (x = y) as ->
      by (apply (NoDup_map_inj GetId (live_robots_ m));
          [apply HI | assumption | assumption | congruence]).
  apply FindLiveRobot_first_at. exact Hy.
Qed.

(** The decay step leaves an engineer as it is. *)
Lemma ChangeHeat_Engineer (e : Z) (x : BaseRobot) :
  good_robot x -> class_of x = Engineer -> 0 <= e -> ChangeHeat e x = x.
Proof.
  intros (_ & _ & _ & Hcaps) Hc He. rewrite Hc in Hcaps.
  destruct Hcaps as (_ & _ & Hmh & Hh).
  destruct x as [t r h mh l mb ty b c]. cbn in *. subst.
  unfold ChangeHeat. cbn.
  destruct (Z.gtb_spec 0 e); [lia|]. reflexivity.
Qed.

Lemma HandleTimeChange_keeps_Engineer (t : Z) (m : RobotManager) (x : BaseRobot) :
  Inv m -> u32 t -> In x (live_robots_ m) -> class_of x = Engineer ->
  In x (live_robots_ (HandleTimeChange t m)).
Proof.
  intros HI Ht Hin Hc.
  destruct (Z.leb_spec t (last_time_ m)) as [Hle|Hlt].
  { rewrite HandleTimeChange_late by assumption. exact Hin. }
  rewrite HandleTimeChange_advance by (assumption || apply HI). cbn.
  pose proof (inv_live_good m HI) as Hg. pose proof (inv_live_blood m HI) as Hb.
  rewrite Forall_forall in Hg, Hb.
  apply filter_In. split.
  - apply in_map_iff. exists x. split; [|exact Hin].
    apply ChangeHeat_Engineer; [auto | exact Hc | lia].
  - unfold IsDead. apply negb_true_iff, Z.leb_gt. auto.
Qed.

(** C8.  In a reachable state, the commands H and U addressed to a live
    engineer leave the whole state, hence each of its attributes, as it is;
    the same holds for the whole step of [main] on such a command, clock
    advance included, as far as the engineer is concerned.  In a reachable
    state every engineer, live or destroyed, has maximal blood 300, maximal
    heat 0 and heat 0. *)
Theorem Engineer_ignores_H_and_U (m : RobotManager) :
  reachable m ->
  (forall (x : BaseRobot) (team robot p3 : Z),
      In x (live_robots_ m) -> GetId x = (team, robot) ->
      class_of x = Engineer ->
      HandleCommandH team robot p3 m = m /\
      HandCommandU team robot p3 m = m /\
      (forall t : Z, u32 t ->
         In x (live_robots_ (process (mkCommand t "H" team robot p3) m)) /\
         In x (live_robots_ (process (mkCommand t "U" team robot p3) m)))) /\
  (forall x : BaseRobot,
      In x (live_robots_ m ++ dead_robots_ m) -> class_of x = Engineer ->
      max_blood_ x = 300 /\ max_heat_ x = 0 /\ heat_ x = 0).
Proof.
  intros Hm. pose proof (reachable_Inv m Hm) as HI.
  assert (forall m0 x team robot p3,
             Inv m0 -> In x (live_robots_ m0) -> GetId x = (team, robot) ->
             class_of x = Engineer ->
             HandleCommandH team robot p3 m0 = m0 /\
             HandCommandU team robot p3 m0 = m0) as Hnoop.
  { intros m0 x team robot p3 HI0 Hin Hid Hc.
    destruct (In_first_at team robot m0 x HI0 Hin Hid) as (l1 & l2 & Hat).
    rewrite (HandleCommandH_found _ _ _ _ _ _ _ Hat).
    rewrite (HandCommandU_found _ _ _ _ _ _ _ Hat).
    rewrite Hc. split; reflexivity. }
  split.
  - intros x team robot p3 Hin Hid Hc.
    destruct (Hnoop m x team robot p3 HI Hin Hid Hc) as [EH EU].
    split; [exact EH|]. split; [exact EU|]. intros t Ht.
    pose proof (Inv_HandleTimeChange t m HI Ht) as HI'.
    pose proof (HandleTimeChange_keeps_Engineer t m x HI Ht Hin Hc) as Hin'.
    destruct (Hnoop _ x team robot p3 HI' Hin' Hid Hc) as [EH' EU'].
    unfold process, dispatch. cbn. rewrite EH', EU'. split; exact Hin'.
  - intros x Hin Hc.
    assert (good_robot x) as (_ & _ & _ & Hcaps).
    { pose proof (inv_live_good m HI) as Hl. pose proof (inv_dead_good m HI) as Hd.
      rewrite Forall_forall in Hl, Hd. apply in_app_or in Hin. destruct Hin; auto. }
    rewrite Hc in Hcaps. tauto.
Qed.

(** ** The command F *)

Lemma find_none_Forall (p : BaseRobot -> bool) (l : list BaseRobot) :
  Forall (fun y => p y = false) l -> find p l = None.
Proof.
  intros H. induction H as [|a l Ha _ IH]; cbn; [reflexivity|].
  rewrite Ha. exact IH.
Qed.

(** The command F on a live robot of a state of the invariant. *)
Lemma HandleCommandF_Inv (team robot damage : Z) (m : RobotManager) l1 x l2 :
  Inv m -> u32 damage -> first_at team robot l1 x l2 (live_robots_ m) ->
  HandleCommandF team robot damage m =
  if Z.max (blood_ x - damage) 0 =? 0
  then mkManager (l1 ++ l2) (dead_robots_ m ++ [set_blood 0 x])
                 (last_time_ m) (cout m ++ [(team, robot)])
  else mkManager (l1 ++ set_blood (Z.max (blood_ x - damage) 0) x :: l2)
                 (dead_robots_ m) (last_time_ m) (cout m).
Proof.
  intros HI Hd Hat.
  destruct (Inv_first_at _ _ _ _ _ _ HI Hat) as (Hg & Hpos & Hl2).
  pose proof Hg as ((_ & _ & _ & _ & _ & _ & Hb) & _).
  rewrite (HandleCommandF_found _ _ _ _ _ _ _ Hat Hb Hpos)
    by (unfold u32 in Hd; lia).
  rewrite erase_id_id by assumption.
  destruct (Z.leb_spec (blood_ x) damage),
           (Z.eqb_spec (Z.max (blood_ x - damage) 0) 0); try lia.
  - reflexivity.
  - replace (Z.max (blood_ x - damage) 0) with (blood_ x - damage) by lia.
    reflexivity.
Qed.

Lemma health_of_step (team robot damage : Z) (m : RobotManager) :
  Inv m -> u32 damage ->
  0 <= health_of team robot (HandleCommandF team robot damage m)
    <= health_of team robot m.
Proof.
  intros HI Hd. unfold health_of at 2 3.
  destruct (FindLiveRobot team robot m) as [x|] eqn:El.
  2:{ rewrite HandleCommandF_missing by assumption.
      unfold health_of. rewrite El. lia. }
  destruct (FindLiveRobot_first_at _ _ _ _ El) as (l1 & l2 & Hat).
  destruct (Inv_first_at _ _ _ _ _ _ HI Hat) as (Hg & Hpos & Hl2).
  rewrite (HandleCommandF_Inv _ _ _ _ _ _ _ HI Hd Hat).
  destruct Hat as (E & Hl1 & Hx).
  destruct (Z.eqb_spec (Z.max (blood_ x - damage) 0) 0) as [Ez|Ez].
  - unfold health_of, FindLiveRobot. cbn [live_robots_].
    rewrite find_none_Forall by (apply Forall_app; split; assumption). lia.
  - unfold health_of.
    rewrite (first_at_find team robot _ l1
               (set_blood (Z.max (blood_ x - damage) 0) x) l2).
    + cbn. unfold u32 in Hd. lia.
    + repeat split; assumption.
Qed.

Lemma damage_trace_sorted (team robot : Z) (ds : list Z) (m : RobotManager) :
  Inv m -> Forall u32 ds ->
  Sorted Z.ge (health_of team robot m :: damage_trace team robot ds m) /\
  Forall (fun h => 0 <= h) (damage_trace team robot ds m).
Proof.
  intros HI Hds. revert m HI. induction Hds as [|d ds Hd _ IH]; intros m HI.
  - split; repeat constructor.
  - cbn [damage_trace].
    pose proof (health_of_step team robot d m HI Hd) as Hstep.
    destruct (IH _ (Inv_HandleCommandF team robot d m HI Hd)) as [Hs Hp].
    split.
    + constructor; [exact Hs|]. constructor. lia.
    + constructor; [lia | exact Hp].
Qed.

(** C5.  In a reachable state, the command F with a 32-bit amount changes
    nothing when no live robot carries the two ids.  Otherwise the blood of
    the live robot [x] that carries them becomes [max (blood - amount) 0];
    when this is 0 the robot leaves the live vector, is appended to the
    destroyed vector and one line with its ids is written; when it is not,
    only the blood of [x] changes.  Along any run of commands F on one
    robot the blood never increases and never goes below 0. *)
Theorem HandleCommandF_spec :
  (forall (m : RobotManager) (team robot damage : Z),
      reachable m -> u32 damage ->
      let m' := HandleCommandF team robot damage m in
      ((forall x, In x (live_robots_ m) -> GetId x <> (team, robot)) ->
       m' = m) /\
      (forall x, In x (live_robots_ m) -> GetId x = (team, robot) ->
         let h' := Z.max (blood_ x - damage) 0 in
         exists l1 l2,
           live_robots_ m = l1 ++ x :: l2 /\
           (h' = 0 ->
            m' = mkManager (l1 ++ l2) (dead_robots_ m ++ [set_blood 0 x])
                           (last_time_ m) (cout m ++ [(team, robot)])) /\
           (h' <> 0 ->
            m' = mkManager (l1 ++ set_blood h' x :: l2) (dead_robots_ m)
                           (last_time_ m) (cout m)))) /\
  (forall (m : RobotManager) (team robot : Z) (ds : list Z),
      reachable m -> Forall u32 ds ->
      let hs := health_of team robot m :: damage_trace team robot ds m in
      Sorted Z.ge hs /\ Forall (fun h => 0 <= h) hs).
Proof.
  split.
  - intros m team robot damage Hm Hd m'. subst m'.
    pose proof (reachable_Inv m Hm) as HI. split.
    + intros Hno. apply HandleCommandF_missing, FindLiveRobot_None. exact Hno.
    + intros x Hin Hid h'. subst h'.
      destruct (In_first_at team robot m x HI Hin Hid) as (l1 & l2 & Hat).
      exists l1, l2. rewrite (HandleCommandF_Inv _ _ _ _ _ _ _ HI Hd Hat).
      split; [apply Hat|].
      destruct (Z.eqb_spec (Z.max (blood_ x - damage) 0) 0);
        split; intros; congruence.
  - intros m team robot ds Hm Hds hs. subst hs.
    pose proof (reachable_Inv m Hm) as HI.
    destruct (damage_trace_sorted team robot ds m HI Hds) as [Hs Hp].
    split; [exact Hs|]. constructor; [|exact Hp].
    unfold health_of. destruct (FindLiveRobot team robot m) as [x|] eqn:E; [|lia].
    apply FindLiveRobot_Some in E. pose proof (inv_live_blood m HI) as Hb.
    rewrite Forall_forall in Hb. specialize (Hb x (proj1 E)). lia.
Qed.

(** ** The command U *)

Lemma manager_eta (m : RobotManager) :
  mkManager (live_robots_ m) (dead_robots_ m) (last_time_ m) (cout m) = m.
Proof. destruct m. reflexivity. Qed.

Lemma Infantry_Rebuild_spec (r : BaseRobot) :
  let r' := Infantry_Rebuild r in
  GetId r' = GetId r /\ class_of r' = class_of r /\ type r' = type r /\
  level_ r' = level_ r /\ heat_ r' = 0 /\ blood_ r' = max_blood_ r' /\
  (max_blood_ r', max_heat_ r') = level_caps (level_ r).
Proof.
  unfold Infantry_Rebuild, level_caps. cbn.
  destruct (level_ r =? 1); [|destruct (level_ r =? 2); [|destruct (level_ r =? 3)]];
    cbn; repeat split.
Qed.

(** C6.  [Upgrade] to the level [T] of an infantry at level [L] succeeds
    exactly when [T > L] and [T <= 3]; then the level is [T], the caps are
    those of level [T] (100/100, 150/200, 250/300 for 1, 2, 3), blood is the
    maximal blood and heat is 0; when it fails the robot is unchanged.  The
    command U on a live infantry does this to that robot and to nothing else,
    and leaves the whole state unchanged when the upgrade fails.  A level-2
    infantry refuses the levels 2 and 1 and is reset to 250/300 by level 3. *)
Theorem HandCommandU_spec :
  (forall (x : BaseRobot) (T : Z),
      let x' := snd (Upgrade T x) in
      (fst (Upgrade T x) = true <-> T > level_ x /\ T <= 3) /\
      (fst (Upgrade T x) = true ->
       level_ x' = T /\ (max_blood_ x', max_heat_ x') = level_caps T /\
       (T = 1 -> max_blood_ x' = 100 /\ max_heat_ x' = 100) /\
       (T = 2 -> max_blood_ x' = 150 /\ max_heat_ x' = 200) /\
       (T = 3 -> max_blood_ x' = 250 /\ max_heat_ x' = 300) /\
       blood_ x' = max_blood_ x' /\ heat_ x' = 0 /\
       GetId x' = GetId x /\ class_of x' = class_of x /\ type x' = type x) /\
      (fst (Upgrade T x) = false -> x' = x)) /\
  (forall (m : RobotManager) (team robot T : Z) (x : BaseRobot),
      FindLiveRobot team robot m = Some x -> class_of x = Infantry ->
      let m' := HandCommandU team robot T m in
      (exists l1 l2,
          live_robots_ m = l1 ++ x :: l2 /\
          m' = mkManager (l1 ++ snd (Upgrade T x) :: l2) (dead_robots_ m)
                         (last_time_ m) (cout m)) /\
      (fst (Upgrade T x) = false -> m' = m)) /\
  (class_of level2_infantry = Infantry /\ level_ level2_infantry = 2 /\
   Upgrade 2 level2_infantry = (false, level2_infantry) /\
   Upgrade 1 level2_infantry = (false, level2_infantry) /\
   fst (Upgrade 3 level2_infantry) = true /\
   level_ (snd (Upgrade 3 level2_infantry)) = 3 /\
   max_blood_ (snd (Upgrade 3 level2_infantry)) = 250 /\
   max_heat_ (snd (Upgrade 3 level2_infantry)) = 300 /\
   blood_ (snd (Upgrade 3 level2_infantry)) = 250 /\
   heat_ (snd (Upgrade 3 level2_infantry)) = 0).
Proof.
  split; [|split].
  - intros x T x'. subst x'. unfold Upgrade.
    destruct (Z.gtb_spec T (level_ x)) as [Hgt|Hle]; cbn [andb].
    + destruct (Z.leb_spec T 3) as [H3|H3]; cbn [fst snd].
      * split; [split; [lia | reflexivity]|]. split; [|discriminate].
        intros _.
        destruct (Infantry_Rebuild_spec (set_level T x))
          as (R1 & R2 & R3 & R4 & R5 & R6 & R7).
        cbn [level_ set_level] in R4, R7.
        repeat match goal with |- _ /\ _ => split end; try assumption;
          try (intros ->; split;
               [exact (f_equal fst R7) | exact (f_equal snd R7)]).
      * split; [split; [discriminate | lia]|].
        split; [discriminate | reflexivity].
    + cbn [fst snd]. split; [split; [discriminate | lia]|].
      split; [discriminate | reflexivity].
  - intros m team robot T x Hfind Hc m'. subst m'.
    destruct (FindLiveRobot_first_at _ _ _ _ Hfind) as (l1 & l2 & Hat).
    rewrite (HandCommandU_found _ _ _ _ _ _ _ Hat), Hc.
    destruct Hat as (E & _ & _). split.
    + exists l1, l2. split; [exact E | reflexivity].
    + intros Hf. unfold Upgrade in *.
      destruct ((T >? level_ x) && (T <=? 3)); [discriminate|].
      cbn [snd]. rewrite <- E. apply manager_eta.
  - repeat split.
Qed.

(** ** The command H *)

(** C10.  The command H on a live infantry replaces its heat by
    [(heat + amount) mod 2^32] and changes nothing else; the sum is exact
    below [2^32] and loses [2^32] from there on, in which case the stored
    heat strictly decreases.  This happens in a reachable state. *)
Theorem HandleCommandH_wraps :
  (forall (m : RobotManager) (team robot amount : Z) (x : BaseRobot),
      FindLiveRobot team robot m = Some x -> class_of x = Infantry ->
      let m' := HandleCommandH team robot amount m in
      let x' := set_heat ((heat_ x + amount) mod 2 ^ 32) x in
      (exists l1 l2,
          live_robots_ m = l1 ++ x :: l2 /\
          m' = mkManager (l1 ++ x' :: l2) (dead_robots_ m)
                         (last_time_ m) (cout m)) /\
      FindLiveRobot team robot m' = Some x' /\
      (u32 (heat_ x) -> u32 amount ->
       (heat_ x + amount < 2 ^ 32 -> heat_ x' = heat_ x + amount) /\
       (2 ^ 32 <= heat_ x + amount ->
        heat_ x' = heat_ x + amount - 2 ^ 32 /\ heat_ x' < heat_ x))) /\
  (exists (x x' : BaseRobot),
      reachable saturated /\
      FindLiveRobot 1 1 saturated = Some x /\ class_of x = Infantry /\
      FindLiveRobot 1 1 (HandleCommandH 1 1 2 saturated) = Some x' /\
      heat_ x = 4294967295 /\ heat_ x' = 1 /\ heat_ x' < heat_ x).
Proof.
  split.
  - intros m team robot amount x Hfind Hc m' x'. subst m' x'.
    destruct (FindLiveRobot_first_at _ _ _ _ Hfind) as (l1 & l2 & Hat).
    rewrite (HandleCommandH_found _ _ _ _ _ _ _ Hat), Hc.
    destruct Hat as (E & Hl1 & Hx).
    split; [exists l1, l2; split; [exact E | reflexivity]|]. split.
    + apply (first_at_find team robot _ l1 _ l2). repeat split; assumption.
    + intros Hh Ha. cbn [heat_ set_heat]. unfold u32 in *. split; intros H.
      * apply Z.mod_small. lia.
      * assert ((heat_ x + amount) mod 2 ^ 32 = heat_ x + amount - 2 ^ 32) as ->.
        { symmetry. apply (Z.mod_unique _ _ 1); lia. }
        split; lia.
  - eexists. eexists.
    split; [|repeat split; cbv; congruence].
    unfold saturated. apply reach_H; try (unfold u32; lia).
    apply reach_A; try (unfold u32, kInfantry; lia). exact reach_init.
Qed.

(** ** Sample runs *)

Ltac solve_u32 := unfold u32, kInfantry, kEngineer; lia.

Lemma reachable_after_kill : reachable after_kill.
Proof.
  unfold after_kill. apply reach_F; try solve_u32.
  apply reach_A; try solve_u32. exact reach_init.
Qed.

Lemma reachable_mixed : reachable mixed.
Proof.
  unfold mixed. apply reach_A; try solve_u32. exact reachable_after_kill.
Qed.

Lemma reachable_one_infantry : reachable one_infantry.
Proof.
  unfold one_infantry. apply reach_A; try solve_u32. exact reach_init.
Qed.

Lemma reachable_one_engineer : reachable one_engineer.
Proof.
  unfold one_engineer. apply reach_A; try solve_u32. exact reach_init.
Qed.

Lemma reachable_heated : reachable heated.
Proof.
  unfold heated. apply run_reachable; [constructor|].
  repeat constructor; cbn; solve_u32.
Qed.

(** A run of the loop of [main]: the robot is heated to 150 at time 50, has
    heat 120 and blood 70 at time 80; at time 181 its heat has cooled to 19,
    which is not above the limit, so its blood is still 70 and nothing is
    written. *)
Example scenario :
  let m80 := run [mkCommand 0 "A" 1 1 0; mkCommand 50 "H" 1 1 150;
                  mkCommand 80 "-" 0 0 0] init in
  let m181 := process (mkCommand 181 "-" 0 0 0) m80 in
  option_map heat_ (FindLiveRobot 1 1 m80) = Some 120 /\
  option_map blood_ (FindLiveRobot 1 1 m80) = Some 70 /\
  cout m80 = [] /\
  option_map heat_ (FindLiveRobot 1 1 m181) = Some 19 /\
  option_map blood_ (FindLiveRobot 1 1 m181) = Some 70 /\
  dead_robots_ m181 = [] /\ cout m181 = [].
Proof. vm_compute. repeat split. Qed.

(** A revival keeps the level: an infantry upgraded to level 3, destroyed
    and added again comes back at level 3 with blood 250 and heat 0. *)
Example revival_keeps_level :
  let m := run [mkCommand 0 "A" 1 1 0; mkCommand 0 "U" 1 1 3;
                mkCommand 0 "H" 1 1 7; mkCommand 0 "F" 1 1 250;
                mkCommand 5 "A" 1 1 0] init in
  map level_ (live_robots_ m) = [3] /\ map blood_ (live_robots_ m) = [250] /\
  map heat_ (live_robots_ m) = [0] /\ dead_robots_ m = [] /\
  cout m = [(1, 1)].
Proof. vm_compute. repeat split. Qed.

(** ** Instances *)

Lemma HandleCommandA_cross_kind_witness :
  FindLiveRobot 1 5 after_kill = None /\
  In killed_infantry (dead_robots_ after_kill) /\
  GetId killed_infantry = (1, 5) /\ class_of killed_infantry = Infantry /\
  live_robots_ mixed = [EngineerRobot 1 5] /\
  dead_robots_ mixed = dead_robots_ after_kill /\
  In killed_infantry (dead_robots_ mixed).
Proof.
  assert (FindLiveRobot 1 5 after_kill = None) as H1 by reflexivity.
  assert (In killed_infantry (dead_robots_ after_kill)) as H2
      by (left; reflexivity).
  assert (GetId killed_infantry = (1, 5)) as H3 by reflexivity.
  assert (class_of killed_infantry = Infantry) as H4 by reflexivity.
  refine (conj H1 (conj H2 (conj H3 (conj H4 _)))).
  exact (proj2 (HandleCommandA_cross_kind after_kill 1 5 killed_infantry
                  H1 H2 H3 H4)).
Defined.

Lemma HandleCommandA_revive_witness :
  FindLiveRobot 1 5 after_kill = None /\
  In killed_infantry (dead_robots_ after_kill) /\
  GetId killed_infantry = (1, 5) /\ GetType killed_infantry = kInfantry /\
  exists d', live_robots_ (HandleCommandA 1 5 kInfantry after_kill) = [d'] /\
             blood_ d' = max_blood_ d' /\ heat_ d' = 0.
Proof.
  assert (FindLiveRobot 1 5 after_kill = None) as H1 by reflexivity.
  assert (In killed_infantry (dead_robots_ after_kill)) as H2
      by (left; reflexivity).
  assert (GetId killed_infantry = (1, 5)) as H3 by reflexivity.
  assert (GetType killed_infantry = kInfantry) as H4 by reflexivity.
  refine (conj H1 (conj H2 (conj H3 (conj H4 _)))).
  destruct (HandleCommandA_revive after_kill 1 5 kInfantry killed_infantry
              H1 H2 H3 H4)
    as (d & d' & _ & _ & _ & Hl & _ & _ & Hb & Hh & _).
  exists d'. exact (conj Hl (conj Hb Hh)).
Defined.

Lemma HandleTimeChange_spec_witness :
  u32 80 /\ u32 (last_time_ heated) /\ Forall wf_robot (live_robots_ heated) /\
  last_time_ heated < 80 /\
  last_time_ (HandleTimeChange 80 heated) = 80 /\
  map blood_ (live_robots_ (HandleTimeChange 80 heated)) = [70].
Proof.
  assert (u32 80) as H1 by solve_u32.
  assert (u32 (last_time_ heated)) as H2 by (cbn; solve_u32).
  assert (Forall wf_robot (live_robots_ heated)) as H3
      by (repeat constructor; cbn; lia).
  assert (last_time_ heated < 80) as H4 by (cbn; lia).
  refine (conj H1 (conj H2 (conj H3 (conj H4 _)))).
  destruct (HandleTimeChange_spec heated 80 H1 H2 H3) as (_ & Hadv & _).
  destruct (Hadv H4) as (Hl & _ & _ & Ht).
  split; [exact Ht|]. rewrite Hl. reflexivity.
Defined.

Lemma HandleCommandF_spec_witness :
  reachable heated /\ u32 30 /\
  In (set_heat 150 (InfantryRobot 1 1)) (live_robots_ heated) /\
  exists l1 l2,
    live_robots_ heated = l1 ++ set_heat 150 (InfantryRobot 1 1) :: l2 /\
    map blood_ (live_robots_ (HandleCommandF 1 1 30 heated)) =
    map blood_ l1 ++ 70 :: map blood_ l2.
Proof.
  assert (u32 30) as H2 by solve_u32.
  assert (In (set_heat 150 (InfantryRobot 1 1)) (live_robots_ heated)) as H3
      by (left; reflexivity).
  refine (conj reachable_heated (conj H2 (conj H3 _))).
  destruct (proj1 HandleCommandF_spec heated 1 1 30 reachable_heated H2)
    as [_ Hhit].
  destruct (Hhit _ H3 eq_refl) as (l1 & l2 & E & _ & Hlive).
  exists l1, l2. split; [exact E|].
  rewrite Hlive by (cbn; lia). cbn [live_robots_].
  rewrite map_app. reflexivity.
Defined.

Lemma HandCommandU_spec_witness :
  FindLiveRobot 1 1 one_infantry = Some (InfantryRobot 1 1) /\
  class_of (InfantryRobot 1 1) = Infantry /\
  exists l1 l2,
    live_robots_ one_infantry = l1 ++ InfantryRobot 1 1 :: l2 /\
    HandCommandU 1 1 2 one_infantry =
    mkManager (l1 ++ snd (Upgrade 2 (InfantryRobot 1 1)) :: l2)
              (dead_robots_ one_infantry) (last_time_ one_infantry)
              (cout one_infantry).
Proof.
  assert (FindLiveRobot 1 1 one_infantry = Some (InfantryRobot 1 1)) as H1
      by reflexivity.
  assert (class_of (InfantryRobot 1 1) = Infantry) as H2 by reflexivity.
  refine (conj H1 (conj H2 _)).
  exact (proj1 (proj1 (proj2 HandCommandU_spec) one_infantry 1 1 2
                  (InfantryRobot 1 1) H1 H2)).
Defined.

Lemma HandleCommandA_live_noop_witness :
  In (InfantryRobot 1 1) (live_robots_ one_infantry) /\
  GetId (InfantryRobot 1 1) = (1, 1) /\
  HandleCommandA 1 1 kEngineer one_infantry = one_infantry.
Proof.
  assert (In (InfantryRobot 1 1) (live_robots_ one_infantry)) as H1
      by (left; reflexivity).
  assert (GetId (InfantryRobot 1 1) = (1, 1)) as H2 by reflexivity.
  refine (conj H1 (conj H2 _)).
  exact (HandleCommandA_live_noop one_infantry 1 1 kEngineer
           (InfantryRobot 1 1) H1 H2).
Defined.

Lemma Engineer_ignores_H_and_U_witness :
  reachable one_engineer /\
  In (EngineerRobot 1 2) (live_robots_ one_engineer) /\
  GetId (EngineerRobot 1 2) = (1, 2) /\
  class_of (EngineerRobot 1 2) = Engineer /\
  HandleCommandH 1 2 40 one_engineer = one_engineer /\
  HandCommandU 1 2 40 one_engineer = one_engineer.
Proof.
  assert (In (EngineerRobot 1 2) (live_robots_ one_engineer)) as H1
      by (left; reflexivity).
  assert (GetId (EngineerRobot 1 2) = (1, 2)) as H2 by reflexivity.
  assert (class_of (EngineerRobot 1 2) = Engineer) as H3 by reflexivity.
  refine (conj reachable_one_engineer (conj H1 (conj H2 (conj H3 _)))).
  destruct (proj1 (Engineer_ignores_H_and_U one_engineer reachable_one_engineer)
              (EngineerRobot 1 2) 1 2 40 H1 H2 H3) as (EH & EU & _).
  exact (conj EH EU).
Defined.

Lemma live_dead_disjoint_witness :
  reachable mixed /\ NoDup (map GetId (live_robots_ mixed)) /\
  forall x, In x (live_robots_ mixed) -> ~ In x (dead_robots_ mixed).
Proof.
  refine (conj reachable_mixed _).
  destruct (proj1 live_dead_disjoint mixed reachable_mixed)
    as (_ & Hno & Hnd & _).
  exact (conj Hnd Hno).
Defined.

Lemma HandleCommandH_wraps_witness :
  FindLiveRobot 1 1 saturated =
    Some (set_heat 4294967295 (InfantryRobot 1 1)) /\
  class_of (set_heat 4294967295 (InfantryRobot 1 1)) = Infantry /\
  FindLiveRobot 1 1 (HandleCommandH 1 1 2 saturated) =
    Some (set_heat ((4294967295 + 2) mod 2 ^ 32)
                   (set_heat 4294967295 (InfantryRobot 1 1))).
Proof.
  assert (FindLiveRobot 1 1 saturated =
          Some (set_heat 4294967295 (InfantryRobot 1 1))) as H1 by reflexivity.
  assert (class_of (set_heat 4294967295 (InfantryRobot 1 1)) = Infantry) as H2
      by reflexivity.
  refine (conj H1 (conj H2 _)).
  exact (proj1 (proj2 (proj1 HandleCommandH_wraps saturated 1 1 2 _ H1 H2))).
Defined.

(** * Further properties *)

(** ** The branches of the command A *)

Lemma HandleCommandA_revive_eq (team robot : Z) (ty : RobotType)
  (m : RobotManager) (d : BaseRobot) :
  FindLiveRobot team robot m = None ->
  FindDeadRobot team robot ty m = Some d ->
  HandleCommandA team robot ty m =
  mkManager (live_robots_ m ++ [Rebuild d])
            (erase_id team robot (dead_robots_ m)) (last_time_ m) (cout m).
Proof. intros Hl Hd. unfold HandleCommandA. rewrite Hl, Hd. reflexivity. Qed.

Lemma HandleCommandA_fresh_eq (team robot : Z) (ty : RobotType)
  (m : RobotManager) :
  FindLiveRobot team robot m = None ->
  FindDeadRobot team robot ty m = None ->
  HandleCommandA team robot ty m =
  match fresh_robot team robot ty with
  | Some x => mkManager (live_robots_ m ++ [x]) (dead_robots_ m)
                        (last_time_ m) (cout m)
  | None => m
  end.
Proof.
  intros Hl Hd. unfold HandleCommandA, fresh_robot. rewrite Hl, Hd.
  destruct (ty =? kInfantry); [reflexivity|].
  destruct (ty =? kEngineer); reflexivity.
Qed.

Lemma GetType_range (r : BaseRobot) :
  GetType r = kInfantry \/ GetType r = kEngineer.
Proof. unfold GetType. destruct (class_of r); auto. Qed.

(** X6.  A type operand that is neither 0 nor 1 makes the command A a
    no-op in every state: no destroyed robot has such a type, so nothing is
    revived, and nothing is built. *)
Theorem HandleCommandA_unknown_type (m : RobotManager) (team robot : Z)
  (ty : RobotType) :
  ty <> kInfantry -> ty <> kEngineer ->
  FindDeadRobot team robot ty m = None /\
  HandleCommandA team robot ty m = m.
Proof.
  intros Hi He.
  assert (FindDeadRobot team robot ty m = None) as Hd.
  { apply FindDeadRobot_None. intros d _ _ Hty.
    destruct (GetType_range d); congruence. }
  split; [exact Hd|].
  unfold HandleCommandA. rewrite Hd.
  destruct (FindLiveRobot team robot m); [reflexivity|].
  destruct (Z.eqb_spec ty kInfantry); [contradiction|].
  destruct (Z.eqb_spec ty kEngineer); [contradiction|]. reflexivity.
Qed.

Lemma HandleCommandA_unknown_type_witness :
  7 <> kInfantry /\ 7 <> kEngineer /\ HandleCommandA 1 5 7 after_kill = after_kill.
Proof.
  assert (7 <> kInfantry) as H1 by (unfold kInfantry; lia).
  assert (7 <> kEngineer) as H2 by (unfold kEngineer; lia).
  refine (conj H1 (conj H2 _)).
  exact (proj2 (HandleCommandA_unknown_type after_kill 1 5 7 H1 H2)).
Defined.

(** X7.  When neither a live robot with the two ids nor a destroyed robot
    with the two ids and the type exists, the command A with type 0 appends a
    level-1 infantry with blood 100, heat 0 and caps 100/100 to the live
    vector, with type 1 an engineer with blood 300, heat 0 and caps 300/0;
    the destroyed vector, the clock and the output stay as they are, also when
    destroyed robots of the other class carry the two ids. *)
Theorem HandleCommandA_fresh (m : RobotManager) (team robot : Z)
  (ty : RobotType) :
  (forall x, In x (live_robots_ m) -> GetId x <> (team, robot)) ->
  (forall d, In d (dead_robots_ m) -> GetId d = (team, robot) ->
             GetType d <> ty) ->
  ty = kInfantry \/ ty = kEngineer ->
  exists x,
    HandleCommandA team robot ty m =
    mkManager (live_robots_ m ++ [x]) (dead_robots_ m) (last_time_ m) (cout m) /\
    GetId x = (team, robot) /\ GetType x = ty /\ type x = ty /\
    level_ x = 1 /\ heat_ x = 0 /\ blood_ x = max_blood_ x /\
    (ty = kInfantry -> max_blood_ x = 100 /\ max_heat_ x = 100) /\
    (ty = kEngineer -> max_blood_ x = 300 /\ max_heat_ x = 0).
Proof.
  intros Hl Hd Hty.
  apply FindLiveRobot_None in Hl. apply FindDeadRobot_None in Hd.
  rewrite (HandleCommandA_fresh_eq _ _ _ _ Hl Hd).
  destruct Hty as [-> | ->].
  - exists (InfantryRobot team robot). cbn.
    repeat match goal with |- _ /\ _ => split end;
      try reflexivity; try (intros _; split; reflexivity);
      unfold kInfantry, kEngineer; discriminate.
  - exists (EngineerRobot team robot). cbn.
    repeat match goal with |- _ /\ _ => split end;
      try reflexivity; try (intros _; split; reflexivity);
      unfold kInfantry, kEngineer; discriminate.
Qed.

Lemma HandleCommandA_fresh_witness :
  (forall x, In x (live_robots_ after_kill) -> GetId x <> (1, 5)) /\
  (forall d, In d (dead_robots_ after_kill) -> GetId d = (1, 5) ->
             GetType d <> kEngineer) /\
  (kEngineer = kInfantry \/ kEngineer = kEngineer) /\
  exists x,
    HandleCommandA 1 5 kEngineer after_kill =
    mkManager (live_robots_ after_kill ++ [x]) (dead_robots_ after_kill)
              (last_time_ after_kill) (cout after_kill) /\
    blood_ x = max_blood_ x.
Proof.
  assert (forall x, In x (live_robots_ after_kill) -> GetId x <> (1, 5)) as H1
      by (intros x []).
  assert (forall d, In d (dead_robots_ after_kill) -> GetId d = (1, 5) ->
                    GetType d <> kEngineer) as H2
      by (intros d [<-|[]] _; discriminate).
  assert (kEngineer = kInfantry \/ kEngineer = kEngineer) as H3
      by (right; reflexivity).
  refine (conj H1 (conj H2 (conj H3 _))).
  destruct (HandleCommandA_fresh after_kill 1 5 kEngineer H1 H2 H3)
    as (x & E & _ & _ & _ & _ & _ & Hb & _).
  exists x. exact (conj E Hb).
Defined.

(** ** What the commands leave alone *)

Lemma map_update_first {B : Type} (g : BaseRobot -> B) (p : BaseRobot -> bool)
  (f : BaseRobot -> BaseRobot) (l : list BaseRobot) :
  (forall x, g (f x) = g x) -> map g (update_first p f l) = map g l.
Proof.
  intros H. induction l as [|a l IH]; cbn; [reflexivity|].
  destruct (p a); cbn; [rewrite H | rewrite IH]; reflexivity.
Qed.

Lemma HandleCommandA_frame (team robot : Z) (ty : RobotType) (m : RobotManager) :
  last_time_ (HandleCommandA team robot ty m) = last_time_ m /\
  cout (HandleCommandA team robot ty m) = cout m /\
  incl (dead_robots_ (HandleCommandA team robot ty m)) (dead_robots_ m) /\
  (live_robots_ (HandleCommandA team robot ty m) = live_robots_ m \/
   exists x, live_robots_ (HandleCommandA team robot ty m) =
             live_robots_ m ++ [x] /\ GetId x = (team, robot)).
Proof.
  unfold HandleCommandA.
  destruct (FindLiveRobot team robot m) as [x|] eqn:El.
  { repeat split; auto using incl_refl. }
  destruct (FindDeadRobot team robot ty m) as [d|] eqn:Ed.
  - apply FindDeadRobot_Some in Ed. destruct Ed as (_ & Hid & _).
    cbn. repeat split.
    + intros y Hy. apply erase_id_In in Hy. tauto.
    + right. exists (Rebuild d). split; [reflexivity|].
      destruct (Rebuild_spec d) as (-> & _). exact Hid.
  - destruct (ty =? kInfantry); [|destruct (ty =? kEngineer)]; cbn;
      repeat split; auto using incl_refl; right; eexists; split; reflexivity.
Qed.

Lemma HandleCommandF_frame (team robot damage : Z) (m : RobotManager) :
  last_time_ (HandleCommandF team robot damage m) = last_time_ m.
Proof.
  unfold HandleCommandF. destruct (FindLiveRobot team robot m); [|reflexivity].
  destruct (IsDead b); [reflexivity|].
  destruct (IsDead (set_blood _ b)); reflexivity.
Qed.

Lemma HandleCommandH_frame (team robot add_heat : Z) (m : RobotManager) :
  last_time_ (HandleCommandH team robot add_heat m) = last_time_ m /\
  cout (HandleCommandH team robot add_heat m) = cout m /\
  dead_robots_ (HandleCommandH team robot add_heat m) = dead_robots_ m /\
  map (set_heat 0) (live_robots_ (HandleCommandH team robot add_heat m)) =
  map (set_heat 0) (live_robots_ m).
Proof.
  unfold HandleCommandH. destruct (FindLiveRobot team robot m); [|auto].
  destruct (GetType b =? kEngineer); [auto|].
  destruct (class_of b); [|auto]. cbn. repeat split.
  apply map_update_first. reflexivity.
Qed.

Lemma HandCommandU_frame (team robot target_level : Z) (m : RobotManager) :
  last_time_ (HandCommandU team robot target_level m) = last_time_ m /\
  cout (HandCommandU team robot target_level m) = cout m /\
  dead_robots_ (HandCommandU team robot target_level m) = dead_robots_ m /\
  map dead_key (live_robots_ (HandCommandU team robot target_level m)) =
  map dead_key (live_robots_ m).
Proof.
  unfold HandCommandU. destruct (FindLiveRobot team robot m); [|auto].
  destruct (GetType b =? kEngineer); [auto|].
  destruct (class_of b); [|auto]. cbn. repeat split.
  apply map_update_first. intros x. unfold dead_key.
  destruct (Upgrade_frame target_level x) as (-> & -> & _). reflexivity.
Qed.

(** X10.  In every state: the commands A, H and U write no output and leave
    the clock alone, and so does F for the clock; A never adds to the
    destroyed vector and at most appends one robot with the two ids to the
    live vector; H and U leave the destroyed vector as it is; H changes no
    attribute other than heat in the live vector; U changes neither ids nor
    classes there. *)
Theorem commands_frame (m : RobotManager) (p1 p2 p3 : Z) :
  (let m' := HandleCommandA p1 p2 p3 m in
   last_time_ m' = last_time_ m /\ cout m' = cout m /\
   incl (dead_robots_ m') (dead_robots_ m) /\
   (live_robots_ m' = live_robots_ m \/
    exists x, live_robots_ m' = live_robots_ m ++ [x] /\ GetId x = (p1, p2))) /\
  last_time_ (HandleCommandF p1 p2 p3 m) = last_time_ m /\
  (let m' := HandleCommandH p1 p2 p3 m in
   last_time_ m' = last_time_ m /\ cout m' = cout m /\
   dead_robots_ m' = dead_robots_ m /\
   map (set_heat 0) (live_robots_ m') = map (set_heat 0) (live_robots_ m)) /\
  (let m' := HandCommandU p1 p2 p3 m in
   last_time_ m' = last_time_ m /\ cout m' = cout m /\
   dead_robots_ m' = dead_robots_ m /\
   map dead_key (live_robots_ m') = map dead_key (live_robots_ m)).
Proof.
  split; [apply HandleCommandA_frame|].
  split; [apply HandleCommandF_frame|].
  split; [apply HandleCommandH_frame | apply HandCommandU_frame].
Qed.

(** X11.  A command F, H or U whose two ids are those of no live robot
    changes nothing, also when destroyed robots carry these ids: a destroyed
    robot cannot be hit, heated or upgraded. *)
Theorem commands_on_missing_robot (m : RobotManager) (team robot p3 : Z) :
  (forall x, In x (live_robots_ m) -> GetId x <> (team, robot)) ->
  HandleCommandF team robot p3 m = m /\
  HandleCommandH team robot p3 m = m /\
  HandCommandU team robot p3 m = m.
Proof.
  intros H. apply FindLiveRobot_None in H.
  unfold HandleCommandF, HandleCommandH, HandCommandU. rewrite H.
  repeat split.
Qed.

Lemma commands_on_missing_robot_witness :
  (forall x, In x (live_robots_ mixed) -> GetId x <> (7, 7)) /\
  HandleCommandF 7 7 10 mixed = mixed /\
  HandleCommandH 7 7 10 mixed = mixed /\
  HandCommandU 7 7 10 mixed = mixed.
Proof.
  assert (forall x, In x (live_robots_ mixed) -> GetId x <> (7, 7)) as H
      by (intros x [<-|[]]; discriminate).
  exact (conj H (commands_on_missing_robot mixed 7 7 10 H)).
Defined.

(** ** The clock *)

Lemma dispatch_last_time (c : Command) (m : RobotManager) :
  last_time_ (dispatch c m) = last_time_ m.
Proof.
  unfold dispatch.
  destruct (c_cmd c =? "A")%string; [apply HandleCommandA_frame|].
  destruct (c_cmd c =? "F")%string; [apply HandleCommandF_frame|].
  destruct (c_cmd c =? "H")%string; [apply HandleCommandH_frame|].
  destruct (c_cmd c =? "U")%string; [apply HandCommandU_frame|].
  reflexivity.
Qed.

Lemma HandleTimeChange_last_time (t : Z) (m : RobotManager) :
  last_time_ (HandleTimeChange t m) = Z.max (last_time_ m) t.
Proof.
  unfold HandleTimeChange. destruct (Z.leb_spec t (last_time_ m)); [lia|].
  destruct (time_loop _ _ _ _) as [[l d] o]. cbn. lia.
Qed.

(** X12.  The clock is the largest time stamp seen so far: one step of
    [main] sets it to the maximum of its value and the record's time, and a
    whole input to the maximum over all its records; a record whose time is
    not after the clock is run without any time advance. *)
Theorem clock_is_max :
  (forall (c : Command) (m : RobotManager),
      last_time_ (process c m) = Z.max (last_time_ m) (c_time c)) /\
  (forall (cs : list Command) (m : RobotManager),
      last_time_ (run cs m) =
      fold_left Z.max (map c_time cs) (last_time_ m)) /\
  (forall (c : Command) (m : RobotManager),
      c_time c <= last_time_ m -> process c m = dispatch c m).
Proof.
  assert (forall c m, last_time_ (process c m) = Z.max (last_time_ m) (c_time c))
    as Hstep.
  { intros c m. unfold process.
    rewrite dispatch_last_time. apply HandleTimeChange_last_time. }
  split; [exact Hstep|]. split.
  - intros cs. induction cs as [|c cs IH]; intros m; cbn; [reflexivity|].
    unfold run in IH. rewrite IH, Hstep. reflexivity.
  - intros c m H. unfold process.
    rewrite HandleTimeChange_late by assumption. reflexivity.
Qed.

Lemma clock_is_max_witness :
  c_time (mkCommand 3 "F" 1 1 5) <= last_time_ heated /\
  process (mkCommand 3 "F" 1 1 5) heated =
  dispatch (mkCommand 3 "F" 1 1 5) heated.
Proof.
  assert (c_time (mkCommand 3 "F" 1 1 5) <= last_time_ heated) as H
      by (cbn; lia).
  exact (conj H (proj2 (proj2 clock_is_max) (mkCommand 3 "F" 1 1 5) heated H)).
Defined.

(** ** Repeated commands *)

Lemma find_app (p : BaseRobot -> bool) (l1 l2 : list BaseRobot) :
  find p (l1 ++ l2) =
  match find p l1 with Some x => Some x | None => find p l2 end.
Proof.
  induction l1 as [|a l1 IH]; cbn; [reflexivity|].
  destruct (p a); [reflexivity | exact IH].
Qed.

Lemma has_id_true (team robot : Z) (x : BaseRobot) :
  has_id team robot x = true <-> GetId x = (team, robot).
Proof. unfold has_id. apply id_eqb_eq. Qed.

Lemma has_id_false (team robot : Z) (x : BaseRobot) :
  has_id team robot x = false <-> GetId x <> (team, robot).
Proof. unfold has_id. apply id_eqb_neq. Qed.

Lemma HandleCommandA_present (team robot : Z) (ty : RobotType)
  (m : RobotManager) (x : BaseRobot) :
  In x (live_robots_ m) -> GetId x = (team, robot) ->
  HandleCommandA team robot ty m = m.
Proof.
  intros Hin Hid. unfold HandleCommandA.
  destruct (FindLiveRobot_In team robot m x Hin Hid) as [y ->]. reflexivity.
Qed.

(** X8.  The command A is idempotent in every state and for every type
    operand: a second A with the same operands changes nothing, because
    after the first one either a live robot carries the two ids or nothing
    was done. *)
Theorem HandleCommandA_idempotent (m : RobotManager) (team robot : Z)
  (ty : RobotType) :
  HandleCommandA team robot ty (HandleCommandA team robot ty m) =
  HandleCommandA team robot ty m.
Proof.
  destruct (FindLiveRobot team robot m) as [y|] eqn:El.
  { unfold HandleCommandA at 2. rewrite El.
    unfold HandleCommandA. rewrite El. reflexivity. }
  destruct (FindDeadRobot team robot ty m) as [d|] eqn:Ed.
  - rewrite (HandleCommandA_revive_eq _ _ _ _ _ El Ed).
    apply FindDeadRobot_Some in Ed. destruct Ed as (_ & Hid & _).
    apply (HandleCommandA_present _ _ _ _ (Rebuild d)).
    + cbn. apply in_or_app. right. left. reflexivity.
    + destruct (Rebuild_spec d) as (-> & _). exact Hid.
  - rewrite (HandleCommandA_fresh_eq _ _ _ _ El Ed).
    destruct (fresh_robot team robot ty) as [x|] eqn:Ef.
    + apply (HandleCommandA_present _ _ _ _ x).
      * cbn. apply in_or_app. right. left. reflexivity.
      * unfold fresh_robot in Ef.
        destruct (ty =? kInfantry); [injection Ef as <-; reflexivity|].
        destruct (ty =? kEngineer); [injection Ef as <-; reflexivity|].
        discriminate.
    + rewrite (HandleCommandA_fresh_eq _ _ _ _ El Ed), Ef. reflexivity.
Qed.

Lemma Upgrade_idempotent (T : Z) (x : BaseRobot) :
  Upgrade T (snd (Upgrade T x)) = (false, snd (Upgrade T x)).
Proof.
  unfold Upgrade at 2 3.
  destruct ((T >? level_ x) && (T <=? 3)) eqn:E; cbn [snd].
  - unfold Upgrade.
    destruct (Infantry_Rebuild_spec (set_level T x)) as (_ & _ & _ & -> & _).
    cbn [level_ set_level]. rewrite Z.gtb_ltb, Z.ltb_irrefl. reflexivity.
  - unfold Upgrade. rewrite E. reflexivity.
Qed.

(** X9.  The command U is idempotent in every state: once a robot has been
    brought to a level, the same command again is refused, so it does not
    refill the blood or clear the heat a second time. *)
Theorem HandCommandU_idempotent (m : RobotManager) (team robot T : Z) :
  (forall x : BaseRobot, Upgrade T (snd (Upgrade T x)) = (false, snd (Upgrade T x))) /\
  HandCommandU team robot T (HandCommandU team robot T m) =
  HandCommandU team robot T m.
Proof.
  split; [apply Upgrade_idempotent|].
  destruct (FindLiveRobot team robot m) as [x|] eqn:El.
  2:{ assert (HandCommandU team robot T m = m) as E
          by (unfold HandCommandU; rewrite El; reflexivity).
      rewrite !E. reflexivity. }
  destruct (FindLiveRobot_first_at _ _ _ _ El) as (l1 & l2 & Hat).
  rewrite (HandCommandU_found _ _ _ _ _ _ _ Hat).
  destruct (class_of x) eqn:Ec.
  - destruct Hat as (E & Hl1 & Hx).
    destruct (Upgrade_frame T x) as (U1 & U2 & _).
    rewrite (HandCommandU_found team robot T _ l1 (snd (Upgrade T x)) l2).
    + rewrite U2, Ec. cbn [dead_robots_ last_time_ cout].
      rewrite Upgrade_idempotent. reflexivity.
    + repeat split; [assumption | congruence].
  - rewrite (HandCommandU_found _ _ _ _ _ _ _ Hat), Ec. reflexivity.
Qed.

(** ** Looking a robot up after the command A *)

(** X15.  After the command A with type 0 or 1 a live robot carries the two
    ids, in every state; when none did before, the one found has the type of
    the command, full blood and heat 0.  The live robots found under any
    other pair of ids are the same before and after. *)
Theorem FindLiveRobot_after_A (m : RobotManager) (team robot : Z)
  (ty : RobotType) :
  ty = kInfantry \/ ty = kEngineer ->
  let m' := HandleCommandA team robot ty m in
  (exists x, FindLiveRobot team robot m' = Some x /\
             (FindLiveRobot team robot m = None ->
              GetType x = ty /\ blood_ x = max_blood_ x /\ heat_ x = 0)) /\
  (forall team' robot', (team', robot') <> (team, robot) ->
      FindLiveRobot team' robot' m' = FindLiveRobot team' robot' m).
Proof.
  intros Hty m'. subst m'.
  destruct (FindLiveRobot team robot m) as [y|] eqn:El.
  { unfold HandleCommandA. rewrite El. split; [|reflexivity].
    exists y. split; [exact El | discriminate]. }
  assert (forall x, GetId x = (team, robot) ->
            FindLiveRobot team robot
              (mkManager (live_robots_ m ++ [x]) (dead_robots_ m)
                         (last_time_ m) (cout m)) = Some x) as Hnew.
  { intros x Hx. unfold FindLiveRobot in *. cbn [live_robots_].
    rewrite find_app, El. cbn.
    apply has_id_true in Hx. rewrite Hx. reflexivity. }
  assert (forall x team' robot' dd, GetId x = (team, robot) ->
            (team', robot') <> (team, robot) ->
            FindLiveRobot team' robot'
              (mkManager (live_robots_ m ++ [x]) dd
                         (last_time_ m) (cout m)) =
            FindLiveRobot team' robot' m) as Hother.
  { intros x team' robot' dd Hx Hne. unfold FindLiveRobot. cbn [live_robots_].
    rewrite find_app. destruct (find _ (live_robots_ m)); [reflexivity|].
    cbn. replace (has_id team' robot' x) with false; [reflexivity|].
    symmetry. apply has_id_false. congruence. }
  destruct (FindDeadRobot team robot ty m) as [d|] eqn:Ed.
  - rewrite (HandleCommandA_revive_eq _ _ _ _ _ El Ed).
    apply FindDeadRobot_Some in Ed. destruct Ed as (_ & Hid & Hd).
    destruct (Rebuild_spec d) as (R1 & R2 & _ & _ & R5 & R6 & _).
    split.
    + exists (Rebuild d). split.
      * unfold FindLiveRobot in *. cbn [live_robots_].
        rewrite find_app, El. cbn.
        replace (has_id team robot (Rebuild d)) with true; [reflexivity|].
        symmetry. apply has_id_true. congruence.
      * intros _. unfold GetType in *. rewrite R2. auto.
    + intros team' robot' Hne. apply Hother; congruence.
  - rewrite (HandleCommandA_fresh_eq _ _ _ _ El Ed). unfold fresh_robot.
    destruct Hty as [-> | ->]; cbn [Z.eqb kInfantry kEngineer].
    + split; [|intros; apply Hother; [reflexivity | assumption]].
      exists (InfantryRobot team robot). split; [apply Hnew; reflexivity|].
      intros _. repeat split.
    + split; [|intros; apply Hother; [reflexivity | assumption]].
      exists (EngineerRobot team robot). split; [apply Hnew; reflexivity|].
      intros _. repeat split.
Qed.

Lemma FindLiveRobot_after_A_witness :
  (kEngineer = kInfantry \/ kEngineer = kEngineer) /\
  (1, 1) <> (1, 2) /\
  FindLiveRobot 1 1 (HandleCommandA 1 2 kEngineer one_infantry) =
  FindLiveRobot 1 1 one_infantry.
Proof.
  assert (kEngineer = kInfantry \/ kEngineer = kEngineer) as H1
      by (right; reflexivity).
  assert ((1, 1) <> (1, 2)) as H2 by discriminate.
  refine (conj H1 (conj H2 _)).
  exact (proj2 (FindLiveRobot_after_A one_infantry 1 2 kEngineer H1) 1 1 H2).
Defined.

(** ** What holds in every reachable state *)

Lemma reachable_good (m : RobotManager) (r : BaseRobot) :
  reachable m -> In r (live_robots_ m ++ dead_robots_ m) -> good_robot r.
Proof.
  intros Hm Hin. apply reachable_Inv in Hm.
  pose proof (inv_live_good m Hm) as Hl. pose proof (inv_dead_good m Hm) as Hd.
  rewrite Forall_forall in Hl, Hd. apply in_app_or in Hin. destruct Hin; auto.
Qed.




(** X2.  In every reachable state the two vectors agree with [IsDead]:
    every live robot has blood above 0 and every destroyed robot has blood
    exactly 0. *)
Theorem reachable_blood_status (m : RobotManager) :
  reachable m ->
  (forall r, In r (live_robots_ m) -> IsDead r = false /\ 0 < blood_ r) /\
  (forall r, In r (dead_robots_ m) -> IsDead r = true /\ blood_ r = 0).
Proof.
  intros Hm. apply reachable_Inv in Hm.
  pose proof (inv_live_blood m Hm) as Hl. pose proof (inv_dead_blood m Hm) as Hd.
  rewrite Forall_forall in Hl, Hd. split; intros r Hr.
  - specialize (Hl r Hr). split; [|exact Hl].
    unfold IsDead. apply Z.leb_gt. exact Hl.
  - specialize (Hd r Hr). split; [|exact Hd].
    unfold IsDead. rewrite Hd. reflexivity.
Qed.

Lemma reachable_blood_status_witness :
  reachable mixed /\ In killed_infantry (dead_robots_ mixed) /\
  IsDead killed_infantry = true /\ blood_ killed_infantry = 0.
Proof.
  assert (In killed_infantry (dead_robots_ mixed)) as H by (left; reflexivity).
  refine (conj reachable_mixed (conj H _)).
  exact (proj2 (reachable_blood_status mixed reachable_mixed)
               killed_infantry H).
Defined.

(** X3.  In every reachable state an infantry, live or destroyed, has a
    level among 1, 2, 3 and exactly the caps of that level (100/100, 150/200,
    250/300), so the default case of the [switch] of [Rebuild] is never
    taken; an engineer is at level 1; and the stored [type] of every robot is
    the one [GetType] returns. *)
Theorem reachable_levels (m : RobotManager) :
  reachable m ->
  forall r, In r (live_robots_ m ++ dead_robots_ m) ->
    type r = GetType r /\
    (class_of r = Infantry ->
     (level_ r = 1 /\ max_blood_ r = 100 /\ max_heat_ r = 100) \/
     (level_ r = 2 /\ max_blood_ r = 150 /\ max_heat_ r = 200) \/
     (level_ r = 3 /\ max_blood_ r = 250 /\ max_heat_ r = 300)) /\
    (class_of r = Engineer -> level_ r = 1).
Proof.
  intros Hm r Hr. destruct (reachable_good m r Hm Hr) as (_ & Hty & _ & Hc).
  split; [exact Hty|]. split; intros E; rewrite E in Hc.
  - destruct Hc as [Hl Hc]. unfold level_caps in Hc.
    destruct (Z.eqb_spec (level_ r) 1);
      [|destruct (Z.eqb_spec (level_ r) 2);
        [|destruct (Z.eqb_spec (level_ r) 3)]];
      injection Hc as -> ->; try tauto. lia.
  - tauto.
Qed.

Lemma reachable_levels_witness :
  reachable heated /\
  In (set_heat 150 (InfantryRobot 1 1))
     (live_robots_ heated ++ dead_robots_ heated) /\
  type (set_heat 150 (InfantryRobot 1 1)) =
  GetType (set_heat 150 (InfantryRobot 1 1)).
Proof.
  assert (In (set_heat 150 (InfantryRobot 1 1))
             (live_robots_ heated ++ dead_robots_ heated)) as H
      by (left; reflexivity).
  refine (conj reachable_heated (conj H _)).
  exact (proj1 (reachable_levels heated reachable_heated _ H)).
Defined.

Lemma NoDup_map_coarser {A B C : Type} (k : A -> B) (g : B -> C) (l : list A) :
  NoDup (map (fun x => g (k x)) l) -> NoDup (map k l).
Proof.
  induction l as [|a l IH]; cbn; intros H; [constructor|].
  inversion H as [|? ? Hn Hnd]; subst. constructor; [|apply IH; exact Hnd].
  intros Hin. apply Hn. apply in_map_iff in Hin.
  destruct Hin as (y & Ey & Hy). apply in_map_iff. exists y.
  split; [rewrite Ey; reflexivity | exact Hy].
Qed.

Lemma dead_key_ChangeHeat (e : Z) (x : BaseRobot) :
  dead_key (ChangeHeat e x) = dead_key x.
Proof.
  unfold dead_key. rewrite ChangeHeat_GetId.
  destruct (ChangeHeat_frame e x) as (_ & _ & _ & _ & _ & _ & ->). reflexivity.
Qed.

Lemma dead_key_eq (x y : BaseRobot) :
  dead_key x = dead_key y <-> GetId x = GetId y /\ class_of x = class_of y.
Proof.
  unfold dead_key. split.
  - intros H. split; [exact (f_equal fst H) | exact (f_equal snd H)].
  - intros [E1 E2]. rewrite E1, E2. reflexivity.
Qed.

(** What one method call does to the destroyed vector and to the output of
    a state of the invariant: either the destroyed vector shrinks and the
    output stays, or robots that were live, with their ids and classes, are
    appended and their ids written. *)
Lemma dead_step (m m' : RobotManager) :
  Inv m ->
  (exists t, u32 t /\ m' = HandleTimeChange t m) \/
  (exists a b c, m' = HandleCommandA a b c m) \/
  (exists a b c, u32 c /\ m' = HandleCommandF a b c m) \/
  (exists a b c, m' = HandleCommandH a b c m) \/
  (exists a b c, m' = HandCommandU a b c m) ->
  (incl (dead_robots_ m') (dead_robots_ m) /\ cout m' = cout m /\
   exists f, dead_robots_ m' = filter f (dead_robots_ m)) \/
  (exists K, dead_robots_ m' = dead_robots_ m ++ K /\
             cout m' = cout m ++ map GetId K /\
             NoDup (map dead_key K) /\
             forall k, In k K -> exists x, In x (live_robots_ m) /\
                                           dead_key k = dead_key x).
Proof.
  intros HI Hop.
  assert (forall mm, dead_robots_ mm = dead_robots_ m -> cout mm = cout m ->
            incl (dead_robots_ mm) (dead_robots_ m) /\ cout mm = cout m /\
            exists f, dead_robots_ mm = filter f (dead_robots_ m)) as Hsame.
  { intros mm Ed Ec. rewrite Ed. repeat split; auto using incl_refl.
    exists (fun _ => true). symmetry. apply forallb_filter_id.
    apply forallb_forall. reflexivity. }
  destruct Hop as [(t & Ht & ->) | [(a & b & c & ->) | [(a & b & c & Hc & ->) |
                   [(a & b & c & ->) | (a & b & c & ->)]]]].
  - destruct (Z.leb_spec t (last_time_ m)) as [Hle|Hlt].
    { rewrite HandleTimeChange_late by assumption. left. auto. }
    right. rewrite HandleTimeChange_advance by (assumption || apply HI).
    cbn [dead_robots_ cout].
    eexists. split; [reflexivity|]. split; [reflexivity|]. split.
    + apply NoDup_map_filter.
      rewrite map_map. rewrite (map_ext _ dead_key) by apply dead_key_ChangeHeat.
      apply (NoDup_map_coarser dead_key fst). apply HI.
    + intros k Hk. apply filter_In in Hk. destruct Hk as [Hk _].
      apply in_map_iff in Hk. destruct Hk as (x & <- & Hx).
      exists x. split; [exact Hx | apply dead_key_ChangeHeat].
  - left. destruct (FindLiveRobot a b m) as [y|] eqn:El.
    { unfold HandleCommandA. rewrite El. auto. }
    destruct (FindDeadRobot a b c m) as [d|] eqn:Ed.
    + rewrite (HandleCommandA_revive_eq _ _ _ _ _ El Ed). cbn.
      repeat split.
      * intros y Hy. apply erase_id_In in Hy. tauto.
      * eexists. reflexivity.
    + rewrite (HandleCommandA_fresh_eq _ _ _ _ El Ed).
      destruct (fresh_robot a b c); auto.
  - destruct (FindLiveRobot a b m) as [x|] eqn:El.
    2:{ rewrite HandleCommandF_missing by assumption. left. auto. }
    destruct (FindLiveRobot_first_at _ _ _ _ El) as (l1 & l2 & Hat).
    rewrite (HandleCommandF_Inv _ _ _ _ _ _ _ HI Hc Hat).
    destruct (Z.max (blood_ x - c) 0 =? 0); [|left; auto].
    right. exists [set_blood 0 x]. cbn [dead_robots_ cout map].
    destruct Hat as (E & _ & Hx).
    assert (GetId (set_blood 0 x) = (a, b)) as Hk by exact Hx.
    rewrite Hk. repeat split.
    + constructor; [intros []|constructor].
    + intros k [<-|[]]. exists x. split; [|reflexivity].
      rewrite E. apply in_or_app. right. left. reflexivity.
  - left. destruct (HandleCommandH_frame a b c m) as (_ & Ec & Ed & _). auto.
  - left. destruct (HandCommandU_frame a b c m) as (_ & Ec & Ed & _). auto.
Qed.

(** Induction over the reachable states through [dead_step]. *)
Lemma reachable_dead_ind (P : RobotManager -> Prop) :
  P init ->
  (forall m m',
      Inv m -> P m ->
      (incl (dead_robots_ m') (dead_robots_ m) /\ cout m' = cout m /\
       exists f, dead_robots_ m' = filter f (dead_robots_ m)) \/
      (exists K, dead_robots_ m' = dead_robots_ m ++ K /\
                 cout m' = cout m ++ map GetId K /\
                 NoDup (map dead_key K) /\
                 forall k, In k K -> exists x, In x (live_robots_ m) /\
                                               dead_key k = dead_key x) ->
      P m') ->
  forall m, reachable m -> P m.
Proof.
  intros H0 Hstep m Hm. induction Hm as [|m t Hm IH Ht|m a b c Hm IH _ _ _
                                         |m a b c Hm IH _ _ Hc|m a b c Hm IH _ _ _
                                         |m a b c Hm IH _ _ _].
  - exact H0.
  - apply (Hstep m _ (reachable_Inv m Hm) IH).
    apply dead_step; [apply reachable_Inv, Hm|]. left. eauto.
  - apply (Hstep m _ (reachable_Inv m Hm) IH).
    apply dead_step; [apply reachable_Inv, Hm|]. right. left. eauto.
  - apply (Hstep m _ (reachable_Inv m Hm) IH).
    apply dead_step; [apply reachable_Inv, Hm|]. right. right. left. eauto.
  - apply (Hstep m _ (reachable_Inv m Hm) IH).
    apply dead_step; [apply reachable_Inv, Hm|]. do 3 right. left. eauto.
  - apply (Hstep m _ (reachable_Inv m Hm) IH).
    apply dead_step; [apply reachable_Inv, Hm|]. do 4 right. eauto.
Qed.

Lemma reachable_dead_keys (m : RobotManager) :
  reachable m -> NoDup (map dead_key (dead_robots_ m)).
Proof.
  revert m.
  apply (reachable_dead_ind (fun m => NoDup (map dead_key (dead_robots_ m))));
    [constructor|].
  intros m m' HI IH [(_ & _ & f & ->) | (K & -> & _ & HK & Hlive)].
  - apply NoDup_map_filter. exact IH.
  - rewrite map_app. apply NoDup_app; [exact IH | exact HK |].
    intros a Ha Hb. apply in_map_iff in Ha, Hb.
    destruct Ha as (d & <- & Hd). destruct Hb as (k & Ek & Hk).
    destruct (Hlive k Hk) as (x & Hx & Ekx).
    rewrite Ekx in Ek. apply dead_key_eq in Ek. destruct Ek as [E1 E2].
    exact (inv_disjoint m HI x d Hx Hd E1 E2).
Qed.

(** X4.  In every reachable state the destroyed vector holds at most one
    robot per (team, robot, class): two destroyed robots with the same two
    ids and the same class are the same entry, so the robot [FindDeadRobot]
    returns is the only one a command A of that type could revive. *)
Theorem dead_unique (m : RobotManager) :
  reachable m ->
  NoDup (map dead_key (dead_robots_ m)) /\
  (forall d1 d2, In d1 (dead_robots_ m) -> In d2 (dead_robots_ m) ->
                 GetId d1 = GetId d2 -> class_of d1 = class_of d2 -> d1 = d2) /\
  (forall team robot ty d d',
      FindDeadRobot team robot ty m = Some d ->
      In d' (dead_robots_ m) -> GetId d' = (team, robot) -> GetType d' = ty ->
      d' = d).
Proof.
  intros Hm. pose proof (reachable_dead_keys m Hm) as Hnd.
  assert (forall d1 d2, In d1 (dead_robots_ m) -> In d2 (dead_robots_ m) ->
            GetId d1 = GetId d2 -> class_of d1 = class_of d2 -> d1 = d2) as Huniq.
  { intros d1 d2 H1 H2 E1 E2.
    apply (NoDup_map_inj dead_key (dead_robots_ m)); try assumption.
    apply dead_key_eq. auto. }
  split; [exact Hnd|]. split; [exact Huniq|].
  intros team robot ty d d' Hf Hd' Hid Hty.
  apply FindDeadRobot_Some in Hf. destruct Hf as (Hd & Hid2 & Hty2).
  apply Huniq; try assumption; [congruence|].
  unfold GetType in *. destruct (class_of d), (class_of d'); subst;
    try reflexivity; discriminate.
Qed.

Lemma dead_unique_witness :
  reachable mixed /\ NoDup (map dead_key (dead_robots_ mixed)).
Proof.
  exact (conj reachable_mixed (proj1 (dead_unique mixed reachable_mixed))).
Defined.

Lemma reachable_dead_lines (m : RobotManager) :
  reachable m ->
  forall d, In d (dead_robots_ m) -> In (GetId d) (cout m).
Proof.
  revert m.
  apply (reachable_dead_ind
           (fun m => forall d, In d (dead_robots_ m) -> In (GetId d) (cout m)));
    [intros d []|].
  intros m m' HI IH [(Hincl & -> & _) | (K & -> & -> & _ & _)] d Hd.
  - apply IH, Hincl, Hd.
  - apply in_or_app. apply in_app_or in Hd. destruct Hd as [Hd|Hd].
    + left. apply IH, Hd.
    + right. apply in_map. exact Hd.
Qed.

Lemma reachable_dead_count (m : RobotManager) :
  reachable m ->
  (List.length (dead_robots_ m) <= List.length (cout m))%nat.
Proof.
  revert m.
  apply (reachable_dead_ind
           (fun m => (List.length (dead_robots_ m) <= List.length (cout m))%nat));
    [apply le_n|].
  intros m m' HI IH [(_ & -> & f & ->) | (K & -> & -> & _ & _)].
  - eapply Nat.le_trans; [apply filter_length_le | exact IH].
  - rewrite !length_app, length_map. apply Nat.add_le_mono_r. exact IH.
Qed.

(** X5.  In every reachable state every destroyed robot has been reported:
    its two ids are among the lines written so far, and there are at least
    as many lines as destroyed robots.  The reverse does not hold, since a
    revived robot leaves the destroyed vector while its line stays. *)
Theorem dead_reported (m : RobotManager) :
  reachable m ->
  (forall d, In d (dead_robots_ m) -> In (GetId d) (cout m)) /\
  (List.length (dead_robots_ m) <= List.length (cout m))%nat.
Proof.
  intros Hm. split; [apply reachable_dead_lines | apply reachable_dead_count];
    exact Hm.
Qed.

Lemma dead_reported_witness :
  reachable mixed /\ In killed_infantry (dead_robots_ mixed) /\
  In (GetId killed_infantry) (cout mixed).
Proof.
  assert (In killed_infantry (dead_robots_ mixed)) as H by (left; reflexivity).
  refine (conj reachable_mixed (conj H _)).
  exact (proj1 (dead_reported mixed reachable_mixed) killed_infantry H).
Defined.

(** ** Who dies when the clock advances *)

Lemma IsDead_ChangeHeat (e : Z) (x : BaseRobot) :
  good_robot x -> 0 < blood_ x -> 0 <= e ->
  IsDead (ChangeHeat e x) = dies_by e x.
Proof.
  intros ((_ & _ & Hh & Hmh & _ & _ & Hb) & _) Hpos He.
  unfold IsDead, dies_by. rewrite ChangeHeat_blood by assumption.
  unfold u32 in *.
  destruct (Z.gtb_spec (Z.max (heat_ x - e) 0) (max_heat_ x)),
           (Z.gtb_spec (heat_ x - e) (max_heat_ x)); cbn [andb];
    repeat match goal with
           | |- context [Z.leb ?a ?b] => destruct (Z.leb_spec a b)
           end;
    try reflexivity; lia.
Qed.

(** The clock advance of a state of the invariant, by the test [dies_by]
    on the robots before the advance. *)
Lemma HandleTimeChange_by_dies (m : RobotManager) (t : Z) :
  Inv m -> u32 t -> last_time_ m < t ->
  HandleTimeChange t m =
  mkManager
    (map (ChangeHeat (t - last_time_ m))
         (filter (fun x => negb (dies_by (t - last_time_ m) x)) (live_robots_ m)))
    (dead_robots_ m ++
     map (ChangeHeat (t - last_time_ m))
         (filter (dies_by (t - last_time_ m)) (live_robots_ m)))
    t
    (cout m ++ map GetId (filter (dies_by (t - last_time_ m)) (live_robots_ m))).
Proof.
  intros HI Ht Hlt.
  assert (0 <= t - last_time_ m) as He by lia.
  rewrite HandleTimeChange_advance by (assumption || apply HI). cbn zeta.
  pose proof (inv_live_good m HI) as Hg. pose proof (inv_live_blood m HI) as Hb.
  rewrite Forall_forall in Hg, Hb.
  rewrite !filter_map_swap.
  rewrite (filter_ext_in (fun a => IsDead (ChangeHeat (t - last_time_ m) a))
                         (dies_by (t - last_time_ m)))
    by (intros a Ha; apply IsDead_ChangeHeat; auto).
  rewrite (filter_ext_in
             (fun a => negb (IsDead (ChangeHeat (t - last_time_ m) a)))
             (fun a => negb (dies_by (t - last_time_ m) a)))
    by (intros a Ha; rewrite IsDead_ChangeHeat; auto).
  rewrite map_GetId_ChangeHeat. reflexivity.
Qed.

(** X16.  In a reachable state, a clock advance by [e > 0] destroys exactly
    the live robots whose heat exceeds the limit by more than [e] and whose
    blood is at most [e]; they are appended to the destroyed vector and
    reported in the order of the live vector, all others stay in their order.
    An engineer is never destroyed by the clock, and a robot whose heat is
    not above its limit loses no blood. *)
Theorem HandleTimeChange_deaths (m : RobotManager) (t : Z) :
  reachable m -> u32 t -> last_time_ m < t ->
  let e := t - last_time_ m in
  let m' := HandleTimeChange t m in
  live_robots_ m' =
    map (ChangeHeat e) (filter (fun x => negb (dies_by e x)) (live_robots_ m)) /\
  dead_robots_ m' =
    dead_robots_ m ++ map (ChangeHeat e) (filter (dies_by e) (live_robots_ m)) /\
  cout m' = cout m ++ map GetId (filter (dies_by e) (live_robots_ m)) /\
  (forall x, In x (live_robots_ m) -> class_of x = Engineer ->
             dies_by e x = false) /\
  (forall x, In x (live_robots_ m) -> heat_ x <= max_heat_ x ->
             dies_by e x = false /\ blood_ (ChangeHeat e x) = blood_ x).
Proof.
  intros Hm Ht Hlt e m'. subst m'. pose proof (reachable_Inv m Hm) as HI.
  assert (0 <= e) as He by (subst e; lia).
  rewrite (HandleTimeChange_by_dies m t HI Ht Hlt).
  fold e. cbn [live_robots_ dead_robots_ cout last_time_].
  pose proof (inv_live_good m HI) as Hg.
  rewrite Forall_forall in Hg.
  repeat match goal with |- _ /\ _ => split end; try reflexivity.
  - intros x Hx Hc. destruct (Hg x Hx) as (_ & _ & _ & Hcaps).
    rewrite Hc in Hcaps. destruct Hcaps as (_ & _ & Hmh & Hh).
    unfold dies_by. rewrite Hmh, Hh.
    destruct (Z.gtb_spec (0 - e) 0); [lia | reflexivity].
  - intros x Hx Hle. destruct (Hg x Hx) as ((_ & _ & Hh & Hmh & _ & _ & Hbl) & _).
    split.
    + unfold dies_by. destruct (Z.gtb_spec (heat_ x - e) (max_heat_ x));
        [lia | reflexivity].
    + rewrite ChangeHeat_blood by assumption.
      destruct (Z.gtb_spec (Z.max (heat_ x - e) 0) (max_heat_ x));
        [unfold u32 in *; lia | reflexivity].
Qed.

Lemma HandleTimeChange_deaths_witness :
  reachable squad /\ u32 200 /\ last_time_ squad < 200 /\
  map GetId (live_robots_ (HandleTimeChange 200 squad)) = [(1, 2); (2, 1)] /\
  cout (HandleTimeChange 200 squad) = cout squad ++ [(1, 1)].
Proof.
  assert (reachable squad) as H1
      by (apply run_reachable; [constructor|];
          repeat constructor; cbn; solve_u32).
  assert (u32 200) as H2 by solve_u32.
  assert (last_time_ squad < 200) as H3 by (cbn; lia).
  refine (conj H1 (conj H2 (conj H3 _))).
  destruct (HandleTimeChange_deaths squad 200 H1 H2 H3) as (El & _ & Ec & _).
  rewrite El, Ec. split; reflexivity.
Defined.

(** X13.  Cooling in two steps against cooling in one: for a robot with
    32-bit attributes, [ChangeHeat e2] after [ChangeHeat e1] leaves the same
    heat as [ChangeHeat (e1 + e2)] and never more blood; it leaves strictly
    less exactly when the robot has blood, [e1 > 0], the heat is still above
    the limit after [e1] and no longer after [e1 + e2].  So the blood lost
    to overheating depends on the time stamps at which commands arrive. *)
Theorem ChangeHeat_split (r : BaseRobot) (e1 e2 : Z) :
  wf_robot r -> 0 <= e1 -> 0 <= e2 ->
  let two := ChangeHeat e2 (ChangeHeat e1 r) in
  let one := ChangeHeat (e1 + e2) r in
  heat_ two = heat_ one /\ blood_ two <= blood_ one /\
  (blood_ two < blood_ one <->
   0 < blood_ r /\ 0 < e1 /\ max_heat_ r < heat_ r - e1 /\
   heat_ r - (e1 + e2) <= max_heat_ r).
Proof.
  intros Hwf He1 He2 two one. subst two one.
  pose proof (ChangeHeat_wf e1 r Hwf He1) as Hwf1.
  destruct (ChangeHeat_frame e1 r) as (_ & _ & Emh & _).
  destruct Hwf as (_ & _ & Hh & Hmh & _ & _ & Hb).
  destruct Hwf1 as (_ & _ & Hh1 & _ & _ & _ & Hb1).
  rewrite (ChangeHeat_heat e2), (ChangeHeat_blood e2) by assumption.
  rewrite Emh.
  rewrite !(ChangeHeat_heat _ r), !(ChangeHeat_blood _ r) by (assumption || lia).
  unfold u32 in *.
  destruct (Z.gtb_spec (Z.max (Z.max (heat_ r - e1) 0 - e2) 0) (max_heat_ r)),
           (Z.gtb_spec (Z.max (heat_ r - e1) 0) (max_heat_ r)),
           (Z.gtb_spec (Z.max (heat_ r - (e1 + e2)) 0) (max_heat_ r));
    lia.
Qed.

Lemma ChangeHeat_split_witness :
  wf_robot hot_infantry /\ 0 <= 30 /\
  blood_ (ChangeHeat 30 (ChangeHeat 30 hot_infantry)) <
  blood_ (ChangeHeat (30 + 30) hot_infantry).
Proof.
  assert (wf_robot hot_infantry) as H1 by (vm_compute; intuition discriminate).
  assert (0 <= 30) as H2 by lia.
  refine (conj H1 (conj H2 _)).
  apply (proj2 (proj2 (ChangeHeat_split hot_infantry 30 30 H1 H2 H2))).
  cbn. lia.
Defined.

(** ** Commands in sequence *)

Lemma Rebuild_set_blood (b : Z) (x : BaseRobot) :
  Rebuild (set_blood b x) = Rebuild x.
Proof.
  unfold Rebuild, Infantry_Rebuild, Engineer_Rebuild. cbn.
  destruct (class_of x); [|reflexivity].
  destruct (level_ x =? 1); [|destruct (level_ x =? 2);
                              [|destruct (level_ x =? 3)]]; reflexivity.
Qed.

Lemma GetType_inj (x y : BaseRobot) :
  GetType x = GetType y <-> class_of x = class_of y.
Proof.
  unfold GetType. destruct (class_of x), (class_of y); cbv;
    split; congruence.
Qed.

(** The state after a fatal command F, in a state of the invariant. *)
Lemma HandleCommandF_fatal (team robot damage : Z) (m : RobotManager) l1 x l2 :
  Inv m -> u32 damage -> first_at team robot l1 x l2 (live_robots_ m) ->
  blood_ x <= damage ->
  HandleCommandF team robot damage m =
  mkManager (l1 ++ l2) (dead_robots_ m ++ [set_blood 0 x])
            (last_time_ m) (cout m ++ [(team, robot)]) /\
  FindLiveRobot team robot (HandleCommandF team robot damage m) = None.
Proof.
  intros HI Hd Hat Hle.
  destruct (Inv_first_at _ _ _ _ _ _ HI Hat) as (_ & _ & Hl2).
  rewrite (HandleCommandF_Inv _ _ _ _ _ _ _ HI Hd Hat).
  replace (Z.max (blood_ x - damage) 0) with 0 by lia. cbn [Z.eqb].
  split; [reflexivity|]. unfold FindLiveRobot. cbn [live_robots_].
  apply find_none_Forall. apply Forall_app. split; [apply Hat | exact Hl2].
Qed.

(** X14.  Destroying and adding again, in a reachable state: when a command
    F takes the last blood of the live robot [x] and a command A with the
    type of [x] follows, [x] comes back rebuilt (full blood, heat 0, same
    level) but at the end of the live vector; every destroyed robot with its
    two ids is gone from the destroyed vector and one line has been
    written. *)
Theorem kill_then_revive (m : RobotManager) (team robot damage : Z)
  (x : BaseRobot) :
  reachable m -> u32 damage ->
  In x (live_robots_ m) -> GetId x = (team, robot) -> blood_ x <= damage ->
  exists l1 l2,
    live_robots_ m = l1 ++ x :: l2 /\
    HandleCommandA team robot (GetType x)
                   (HandleCommandF team robot damage m) =
    mkManager (l1 ++ l2 ++ [Rebuild x])
              (erase_id team robot (dead_robots_ m))
              (last_time_ m) (cout m ++ [(team, robot)]).
Proof.
  intros Hm Hd Hin Hid Hle. pose proof (reachable_Inv m Hm) as HI.
  destruct (In_first_at team robot m x HI Hin Hid) as (l1 & l2 & Hat).
  exists l1, l2. split; [apply Hat|].
  destruct (HandleCommandF_fatal _ _ _ _ _ _ _ HI Hd Hat Hle) as [EF Hnone].
  assert (FindDeadRobot team robot (GetType x)
                        (HandleCommandF team robot damage m) =
          Some (set_blood 0 x)) as Hdead.
  { rewrite EF. unfold FindDeadRobot. cbn [dead_robots_].
    rewrite find_app, find_none_Forall.
    - cbn. unfold GetType at 1. cbn [class_of set_blood]. fold (GetType x).
      replace (has_id team robot (set_blood 0 x)) with true
        by (symmetry; apply has_id_true; exact Hid).
      rewrite Z.eqb_refl. reflexivity.
    - apply Forall_forall. intros y Hy.
      destruct (has_id team robot y) eqn:Ey; [|reflexivity]. cbn.
      apply has_id_true in Ey. apply Z.eqb_neq. intros Ety.
      apply GetType_inj in Ety.
      apply (inv_disjoint m HI x y Hin Hy); congruence. }
  rewrite (HandleCommandA_revive_eq _ _ _ _ _ Hnone Hdead).
  rewrite EF. cbn [live_robots_ dead_robots_ last_time_ cout].
  rewrite Rebuild_set_blood, <- app_assoc. f_equal.
  unfold erase_id. rewrite filter_app. cbn.
  replace (has_id team robot (set_blood 0 x)) with true
    by (symmetry; apply has_id_true; exact Hid).
  cbn. apply app_nil_r.
Qed.

Lemma kill_then_revive_witness :
  reachable heated /\ u32 100 /\
  In (set_heat 150 (InfantryRobot 1 1)) (live_robots_ heated) /\
  blood_ (set_heat 150 (InfantryRobot 1 1)) <= 100 /\
  exists l1 l2,
    live_robots_ heated = l1 ++ set_heat 150 (InfantryRobot 1 1) :: l2 /\
    cout (HandleCommandA 1 1 kInfantry (HandleCommandF 1 1 100 heated)) =
    cout heated ++ [(1, 1)].
Proof.
  assert (u32 100) as H2 by solve_u32.
  assert (In (set_heat 150 (InfantryRobot 1 1)) (live_robots_ heated)) as H3
      by (left; reflexivity).
  assert (blood_ (set_heat 150 (InfantryRobot 1 1)) <= 100) as H4
      by (cbn; lia).
  refine (conj reachable_heated (conj H2 (conj H3 (conj H4 _)))).
  destruct (kill_then_revive heated 1 1 100 _ reachable_heated H2 H3 eq_refl H4)
    as (l1 & l2 & E & EA).
  exists l1, l2. split; [exact E|].
  change kInfantry with (GetType (set_heat 150 (InfantryRobot 1 1))).
  rewrite EA. reflexivity.
Defined.

Lemma AddHeat_AddHeat (a b : Z) (x : BaseRobot) :
  AddHeat b (AddHeat a x) = AddHeat (wrap32 (a + b)) x.
Proof.
  assert (((heat_ x + a) mod 2 ^ 32 + b) mod 2 ^ 32 =
          (heat_ x + (a + b) mod 2 ^ 32) mod 2 ^ 32) as E.
  { rewrite Z.add_mod_idemp_l, Z.add_mod_idemp_r by lia. f_equal. lia. }
  unfold AddHeat, wrap32, set_heat. cbn [heat_ max_heat_ team_id robot_id
    level_ max_blood_ type blood_ class_of].
  rewrite E. reflexivity.
Qed.

(** X17.  Two commands H on the same ids add up modulo 2^32, in every
    state: the second after the first is one command H with the wrapped sum
    of the amounts; hence two commands H on the same ids commute. *)
Theorem HandleCommandH_additive (m : RobotManager) (team robot a b : Z) :
  HandleCommandH team robot b (HandleCommandH team robot a m) =
  HandleCommandH team robot (wrap32 (a + b)) m /\
  HandleCommandH team robot b (HandleCommandH team robot a m) =
  HandleCommandH team robot a (HandleCommandH team robot b m).
Proof.
  assert (forall a b,
             HandleCommandH team robot b (HandleCommandH team robot a m) =
             HandleCommandH team robot (wrap32 (a + b)) m) as Hadd.
  { clear a b. intros a b.
    destruct (FindLiveRobot team robot m) as [x|] eqn:El.
    2:{ assert (forall h, HandleCommandH team robot h m = m) as E
            by (intros h; unfold HandleCommandH; rewrite El; reflexivity).
        rewrite !E. reflexivity. }
    destruct (FindLiveRobot_first_at _ _ _ _ El) as (l1 & l2 & Hat).
    rewrite !(HandleCommandH_found _ _ _ m _ _ _ Hat).
    destruct (class_of x) eqn:Ec.
    - rewrite (HandleCommandH_found team robot b _ l1 (AddHeat a x) l2).
      + cbn [class_of AddHeat set_heat]. rewrite Ec.
        cbn [dead_robots_ last_time_ cout].
        change (set_heat (wrap32 (heat_ x + a)) x) with (AddHeat a x).
        rewrite AddHeat_AddHeat. reflexivity.
      + destruct Hat as (E & Hl1 & Hx). repeat split; assumption.
    - rewrite (HandleCommandH_found _ _ _ m _ _ _ Hat), Ec. reflexivity. }
  split; [apply Hadd|].
  rewrite !Hadd. rewrite (Z.add_comm a b). reflexivity.
Qed.

Lemma set_blood_set_blood (c c' : Z) (x : BaseRobot) :
  set_blood c (set_blood c' x) = set_blood c x.
Proof. reflexivity. Qed.

(** X18.  Damage adds up, in a reachable state: when the sum of two amounts
    still fits 32 bits, two commands F on the same ids leave the same state,
    output included, as one command F with the sum. *)
Theorem HandleCommandF_additive (m : RobotManager) (team robot d1 d2 : Z) :
  reachable m -> u32 d1 -> u32 d2 -> u32 (d1 + d2) ->
  HandleCommandF team robot d2 (HandleCommandF team robot d1 m) =
  HandleCommandF team robot (d1 + d2) m.
Proof.
  intros Hm H1 H2 H12. pose proof (reachable_Inv m Hm) as HI.
  destruct (FindLiveRobot team robot m) as [x|] eqn:El.
  2:{ rewrite !(HandleCommandF_missing _ _ _ m El). reflexivity. }
  destruct (FindLiveRobot_first_at _ _ _ _ El) as (l1 & l2 & Hat).
  destruct (Inv_first_at _ _ _ _ _ _ HI Hat) as (Hg & Hpos & Hl2).
  destruct (Z.le_gt_cases (blood_ x) d1) as [Hle|Hgt].
  - destruct (HandleCommandF_fatal _ _ _ _ _ _ _ HI H1 Hat Hle) as [E1 Hnone].
    rewrite (HandleCommandF_missing _ _ _ _ Hnone), E1.
    symmetry. apply HandleCommandF_fatal; try assumption.
    unfold u32 in *. lia.
  - pose proof (Inv_HandleCommandF team robot d1 m HI H1) as HI1.
    rewrite (HandleCommandF_Inv _ _ _ _ _ _ _ HI H12 Hat).
    rewrite (HandleCommandF_Inv _ _ _ _ _ _ _ HI H1 Hat) in *.
    replace (Z.max (blood_ x - d1) 0) with (blood_ x - d1) in * by lia.
    destruct (Z.eqb_spec (blood_ x - d1) 0); [lia|].
    rewrite (HandleCommandF_Inv team robot d2 _ l1
               (set_blood (blood_ x - d1) x) l2 HI1 H2).
    + cbn [blood_ set_blood dead_robots_ last_time_ cout].
      replace (Z.max (blood_ x - d1 - d2) 0)
        with (Z.max (blood_ x - (d1 + d2)) 0) by lia.
      destruct (Z.max (blood_ x - (d1 + d2)) 0 =? 0); reflexivity.
    + destruct Hat as (E & Hl1 & Hx). repeat split; assumption.
Qed.

Lemma HandleCommandF_additive_witness :
  reachable heated /\ u32 30 /\ u32 50 /\ u32 (30 + 50) /\
  HandleCommandF 1 1 50 (HandleCommandF 1 1 30 heated) =
  HandleCommandF 1 1 (30 + 50) heated.
Proof.
  assert (u32 30) as H1 by solve_u32.
  assert (u32 50) as H2 by solve_u32.
  assert (u32 (30 + 50)) as H3 by solve_u32.
  refine (conj reachable_heated (conj H1 (conj H2 (conj H3 _)))).
  exact (HandleCommandF_additive heated 1 1 30 50 reachable_heated H1 H2 H3).
Defined.

(** ** Decay comes before the command *)

(** X19.  In a reachable state, when the clock advance of a record destroys
    the robot the record's command F, H or U is addressed to, the step of
    [main] is the clock advance alone: the robot is in the destroyed vector,
    no live robot carries its ids, the command is ignored, and the ids appear
    exactly once among the lines the step writes. *)
Theorem decay_before_command (m : RobotManager) (t team robot p3 : Z)
  (cmd : string) (x : BaseRobot) :
  reachable m -> u32 t -> last_time_ m < t ->
  In x (live_robots_ m) -> GetId x = (team, robot) ->
  dies_by (t - last_time_ m) x = true ->
  cmd = "F"%string \/ cmd = "H"%string \/ cmd = "U"%string ->
  let m' := process (mkCommand t cmd team robot p3) m in
  m' = HandleTimeChange t m /\
  FindLiveRobot team robot m' = None /\
  In (ChangeHeat (t - last_time_ m) x) (dead_robots_ m') /\
  exists lines, cout m' = cout m ++ lines /\ NoDup lines /\
                In (team, robot) lines.
Proof.
  intros Hm Ht Hlt Hin Hid Hdies Hcmd m'. subst m'.
  pose proof (reachable_Inv m Hm) as HI.
  assert (FindLiveRobot team robot (HandleTimeChange t m) = None) as Hnone.
  { apply FindLiveRobot_None. rewrite (HandleTimeChange_by_dies m t HI Ht Hlt).
    cbn [live_robots_]. intros y' Hy' Ey.
    apply in_map_iff in Hy'. destruct Hy' as (y & <- & Hy).
    apply filter_In in Hy. destruct Hy as [Hy Halive].
    rewrite ChangeHeat_GetId in Ey.
    assert (y = x) as ->
        by (apply (NoDup_map_inj GetId (live_robots_ m));
            [apply HI | assumption | assumption | congruence]).
    rewrite Hdies in Halive. discriminate. }
  assert (process (mkCommand t cmd team robot p3) m = HandleTimeChange t m) as E.
  { unfold process, dispatch. cbn [c_time c_cmd c_p1 c_p2 c_p3].
    unfold HandleCommandF, HandleCommandH, HandCommandU. rewrite Hnone.
    destruct Hcmd as [-> | [-> | ->]]; reflexivity. }
  rewrite E. split; [reflexivity|]. split; [exact Hnone|].
  rewrite (HandleTimeChange_by_dies m t HI Ht Hlt).
  cbn [dead_robots_ cout]. split.
  - apply in_or_app. right. apply in_map. apply filter_In. auto.
  - eexists. split; [reflexivity|]. split.
    + apply NoDup_map_filter. apply HI.
    + rewrite <- Hid. apply in_map. apply filter_In. auto.
Qed.

Lemma decay_before_command_witness :
  reachable squad /\ u32 200 /\ last_time_ squad < 200 /\
  In (set_heat 1000 (InfantryRobot 1 1)) (live_robots_ squad) /\
  dies_by (200 - last_time_ squad) (set_heat 1000 (InfantryRobot 1 1)) = true /\
  process (mkCommand 200 "F" 1 1 5) squad = HandleTimeChange 200 squad.
Proof.
  assert (reachable squad) as H1
      by (apply run_reachable; [constructor|];
          repeat constructor; cbn; solve_u32).
  assert (u32 200) as H2 by solve_u32.
  assert (last_time_ squad < 200) as H3 by (cbn; lia).
  assert (In (set_heat 1000 (InfantryRobot 1 1)) (live_robots_ squad)) as H4
      by (left; reflexivity).
  assert (dies_by (200 - last_time_ squad)
                  (set_heat 1000 (InfantryRobot 1 1)) = true) as H5
      by reflexivity.
  refine (conj H1 (conj H2 (conj H3 (conj H4 (conj H5 _))))).
  exact (proj1 (decay_before_command squad 200 1 1 5 "F" _
                  H1 H2 H3 H4 eq_refl H5 (or_introl eq_refl))).
Defined.
